(** * Repeated, stratified, group-wise K-fold cross validation of the ABT

    Shallow embedding of [trent/abt/sklearn_cv_data.py] and
    [trent/abt/torch_data.py]:
    - [RepeatedStratifiedGroupKFoldOrchestrator] (repeat loop, seeding),
    - [_StratifiedGroupKFoldOrchestrator] (fold lookup, merge, fold splits),
    - [_ABTDataset] (imputation, weights, feature and target matrices).

    A pandas data frame is a list of column names and a list of rows; a row
    maps a column name to a cell, and a cell is a rational number or [None]
    for a missing value (NaN).  Weights use square roots and are real
    numbers. *)

From Stdlib Require Import String.
From Stdlib Require Import List Bool ZArith QArith Lia Permutation.
From Stdlib Require Import Reals Qreals Lra.
Import ListNotations.

Open Scope string_scope.
Open Scope list_scope.
Open Scope Z_scope.

(** ** Cells, rows and frames *)

Definition cell := option Q.
Definition row := string -> cell.

Record frame := mkFrame {
  fcols : list string;
  frows : list row
}.

(** Python exceptions the modelled code can raise. *)
Inductive exn :=
| ValueError
| KeyError
| AttributeError
| AssertionError
| IndexError
| RuntimeError.

Inductive pyres (A : Type) :=
| Ok : A -> pyres A
| Err : exn -> pyres A.
Arguments Ok {A} _.
Arguments Err {A} _.

(** Value equality of pandas for key columns: numbers compare by value and,
    in [drop_duplicates] and [merge], a missing key equals a missing key. *)
Definition cell_eqb (a b : cell) : bool :=
  match a, b with
  | None, None => true
  | Some x, Some y => Qeq_bool x y
  | _, _ => false
  end.

Definition has_col (d : frame) (c : string) : bool :=
  existsb (String.eqb c) (fcols d).

Definition has_cols (d : frame) (cs : list string) : bool :=
  forallb (has_col d) cs.

(** Python's [range(a, b)]. *)
Definition py_range (a b : Z) : list Z :=
  map (fun n => a + Z.of_nat n) (seq 0 (Z.to_nat (b - a))).

(** numpy's integer [%]: the sign follows the divisor, and a zero divisor
    gives 0 (with a RuntimeWarning). *)
Definition np_mod (a b : Z) : Z := if b =? 0 then 0 else a mod b.

(** ** [_StratifiedGroupKFoldOrchestrator.__init__] *)

(** The group key of a row: [("county_fip", "state_code")]. *)
Definition key := (cell * cell)%type.

Definition gkey (r : row) : key := (r "county_fip", r "state_code").

Definition key_eqb (k1 k2 : key) : bool :=
  cell_eqb (fst k1) (fst k2) && cell_eqb (snd k1) (snd k2).

(** [DataFrame.drop_duplicates()]: keep the first occurrence of each key. *)
Fixpoint drop_duplicates (seen : list key) (ks : list key) : list key :=
  match ks with
  | [] => []
  | k :: tl =>
      if existsb (key_eqb k) seen then drop_duplicates seen tl
      else k :: drop_duplicates (k :: seen) tl
  end.

(** Number of earlier lookup entries in the same stratum: the position of
    the entry inside its [groupby("state_code")] group. *)
Definition index_in_stratum (prev : list key) (s : cell) : nat :=
  List.length (filter (fun k => cell_eqb (snd k) s) prev).

(** [groupby("state_code")["county_fip"].transform(
       lambda c: np.arange(len(c)) % folds + 1)];
    groupby drops missing stratum keys, whose rows get NaN. *)
Definition fold_of (folds : Z) (prev : list key) (k : key) : cell :=
  match snd k with
  | None => None
  | Some _ =>
      Some (inject_Z (np_mod (Z.of_nat (index_in_stratum prev (snd k))) folds + 1))
  end.

Fixpoint assign_folds (folds : Z) (prev : list key) (ks : list key)
  : list (key * cell) :=
  match ks with
  | [] => []
  | k :: tl => (k, fold_of folds prev k) :: assign_folds folds (prev ++ [k]) tl
  end.

(** [lookup]: distinct keys of the frame with their fold. *)
Definition fold_lookup (folds : Z) (rs : list row) : list (key * cell) :=
  assign_folds folds [] (drop_duplicates [] (map gkey rs)).

(** The row of the merged frame: the row with its ["__fold"] column. *)
Definition with_fold (r : row) (f : cell) : row :=
  fun c => if String.eqb c "__fold" then f else r c.

(** [data.merge(lookup, on=["county_fip", "state_code"])], an inner join
    keeping the order of the left rows, as pandas 2.2 and later do; earlier
    versions list the same rows grouped by key, so the properties below that
    concern the merged rows are stated up to their order.  A table that
    already has a [__fold] column gets [__fold_x] and [__fold_y] instead;
    the properties of whole runs assume a table without it. *)
Definition merge_lookup (rs : list row) (lookup : list (key * cell)) : list row :=
  flat_map (fun r =>
    map (fun e => with_fold r (snd e))
        (filter (fun e => key_eqb (fst e) (gkey r)) lookup)) rs.

Record splitter := mkSplitter {
  sp_folds : Z;
  sp_data : frame
}.

Definition splitter_init (data : frame) (folds : Z) : pyres splitter :=
  if has_cols data ["county_fip"; "state_code"] then
    let lookup := fold_lookup folds (frows data) in
    let merged := merge_lookup (frows data) lookup in
    (* assert self.data.shape[0] == data.shape[0] *)
    if Nat.eqb (List.length merged) (List.length (frows data)) then
      Ok (mkSplitter folds (mkFrame (fcols data ++ ["__fold"]) merged))
    else Err AssertionError
  else Err KeyError.

(** ** [_make_dataset] subsets and the fold split of [__iter__] *)

(** [Series.isin(folds)]: a missing value is in no list. *)
Definition isin_cell (c : cell) (fs : list Z) : bool :=
  match c with
  | Some q => existsb (fun z => Qeq_bool q (inject_Z z)) fs
  | None => false
  end.

(** [self.data.loc[self.data["__fold"].isin(folds), :]] on a frame that has
    the [__fold] column; [make_dataset] raises the [KeyError] of
    [self.data["__fold"]] on a frame without it. *)
Definition fold_subset (d : frame) (fs : list Z) : frame :=
  mkFrame (fcols d) (filter (fun r => isin_cell (r "__fold") fs) (frows d)).

(** [set(range(1, 1 + self.folds)).difference([ifold])] *)
Definition train_folds (folds ifold : Z) : list Z :=
  filter (fun z => negb (z =? ifold)) (py_range 1 (1 + folds)).

(** The (train, test) row subsets of fold [ifold]. *)
Definition fold_split (sp : splitter) (ifold : Z) : frame * frame :=
  (fold_subset (sp_data sp) (train_folds (sp_folds sp) ifold),
   fold_subset (sp_data sp) [ifold]).

(** ** [_ABTDataset] *)

Definition target_cols : list string :=
  ["infection_target"; "unemployment_target"].

Definition feature_cols : list string :=
  ["travel_limit"; "stay_home"; "educational_fac"; "phase_1"; "phase_2";
   "phase_3"; "tmpf_mean"; "relh_mean"; "male_proportion";
   "Percentage_white"; "young_age"; "mid_age"; "old_age";
   "infection_penetration"; "infection_momentum"; "unemployment_rate";
   "unemployment_penetration"].

(** [self.data.loc[self.data.infection_momentum.isna(), "infection_momentum"] = 1] *)
Definition impute_momentum (r : row) : row :=
  fun c =>
    if String.eqb c "infection_momentum" then
      match r c with None => Some 1%Q | v => v end
    else r c.

(** Floating point operations on possibly missing values; [None] is a NaN
    or an infinity.  [sqrt] of a negative number is NaN. *)
Definition sqrt_opt (o : option R) : option R :=
  match o with
  | Some x => if Rle_dec 0%R x then Some (sqrt x) else None
  | None => None
  end.

Definition div_opt (a b : option R) : option R :=
  match a, b with
  | Some x, Some y => if Req_dec_T y 0%R then None else Some (x / y)%R
  | _, _ => None
  end.

Definition cell_R (c : cell) : option R := option_map Q2R c.

(** pandas' [Series.sum()] skips missing values. *)
Fixpoint sum_skipna (l : list (option R)) : R :=
  match l with
  | [] => 0%R
  | Some x :: tl => (x + sum_skipna tl)%R
  | None :: tl => sum_skipna tl
  end.

(** torch's [sum] propagates NaN. *)
Fixpoint sum_nan (l : list (option R)) : option R :=
  match l with
  | [] => Some 0%R
  | o :: tl =>
      match o, sum_nan tl with
      | Some x, Some a => Some (x + a)%R
      | _, _ => None
      end
  end.

(** sklearn_cv_data.py:
    [np.sqrt(self.data["acs_pop_total"]) / np.sum(np.sqrt(self.data["acs_pop_total"]))] *)
Definition weights_sk (pops : list cell) : list (option R) :=
  let s := map (fun c => sqrt_opt (cell_R c)) pops in
  map (fun o => div_opt o (Some (sum_skipna s))) s.

(** torch_data.py:
    [torch.sqrt(tensor(pop)) / torch.sqrt(torch.sum(tensor(pop)))] *)
Definition weights_torch (pops : list cell) : list (option R) :=
  map (fun c => div_opt (sqrt_opt (cell_R c)) (sqrt_opt (sum_nan (map cell_R pops))))
      pops.

Record abt_view := mkView {
  vdata : frame;
  zmat : list (option R);
  ymat : list (list cell);
  xmat : list (list cell)
}.

(** [_ABTDataset.__init__], given the weight computation of the variant.
    The imputed frame is the frame [self.data] refers to. *)
Definition abt_impute (d : frame) : frame :=
  mkFrame (fcols d) (map impute_momentum (frows d)).

Definition abt_matrices (weights : list cell -> list (option R)) (d : frame)
  : pyres abt_view :=
  if negb (has_col d "acs_pop_total") then Err KeyError
  else if negb (has_cols d target_cols) then Err KeyError
  else if negb (has_cols d feature_cols) then Err KeyError
  else Ok (mkView d
             (weights (map (fun r => r "acs_pop_total") (frows d)))
             (map (fun r => map r target_cols) (frows d))
             (map (fun r => map r feature_cols) (frows d))).

Definition abt_init (weights : list cell -> list (option R)) (d : frame)
  : pyres abt_view :=
  if negb (has_col d "infection_momentum") then Err AttributeError
  else abt_matrices weights (abt_impute d).

Definition abt_init_sk := abt_init weights_sk.
Definition abt_init_torch := abt_init weights_torch.

(** [__len__] *)
Definition abt_len (v : abt_view) : nat := List.length (frows (vdata v)).

(** Python's [seq[i]] on a sequence: negative indices count from the end. *)
Definition py_index {A} (l : list A) (i : Z) : pyres A :=
  let n := Z.of_nat (List.length l) in
  if (- n <=? i) && (i <? n) then
    match nth_error l (Z.to_nat (if i <? 0 then n + i else i)) with
    | Some x => Ok x
    | None => Err IndexError
    end
  else Err IndexError.

(** torch_data.py [__getitem__]: [(self.xmat[i], self.ymat[i], self.zmat[i])] *)
Definition getitem_torch (v : abt_view) (i : Z)
  : pyres (list cell * list cell * option R) :=
  match py_index (xmat v) i, py_index (ymat v) i, py_index (zmat v) i with
  | Ok x, Ok y, Ok z => Ok (x, y, z)
  | Err e, _, _ | _, Err e, _ | _, _, Err e => Err e
  end.

(** sklearn_cv_data.py [__getitem__]: [(self.xmat, self.ymat, self.zmat)] *)
Definition getitem_sk (v : abt_view) (i : Z)
  : list (list cell) * list (list cell) * list (option R) :=
  (xmat v, ymat v, zmat v).

(** [_make_dataset] and [__iter__] of the splitter: for each [ifold] in
    [range(1, 1 + folds)], the train view and then the test view; an
    exception stops the generator.  [self.data["__fold"]] raises [KeyError]
    when the frame has no [__fold] column. *)
Definition make_dataset (weights : list cell -> list (option R))
  (sp : splitter) (fs : list Z) : pyres abt_view :=
  if has_col (sp_data sp) "__fold" then abt_init weights (fold_subset (sp_data sp) fs)
  else Err KeyError.

(** torch_data.py wraps both views in [DataLoader(ds, batch_size=b)] once
    both are built; its [BatchSampler] raises [ValueError] when [b <= 0].
    [batch] is [Some b] for torch_data.py and [None] for sklearn_cv_data.py,
    which yields the views themselves. *)
Definition loader_ok (batch : option Z) : bool :=
  match batch with
  | Some b => 0 <? b
  | None => true
  end.

Fixpoint splitter_loop (weights : list cell -> list (option R)) (batch : option Z)
  (sp : splitter) (ifolds : list Z) : list (abt_view * abt_view) * option exn :=
  match ifolds with
  | [] => ([], None)
  | ifold :: tl =>
      match make_dataset weights sp (train_folds (sp_folds sp) ifold) with
      | Err e => ([], Some e)
      | Ok tr =>
          match make_dataset weights sp [ifold] with
          | Err e => ([], Some e)
          | Ok te =>
              if loader_ok batch then
                let (ys, e) := splitter_loop weights batch sp tl in ((tr, te) :: ys, e)
              else ([], Some ValueError)
          end
      end
  end.

Definition splitter_iter (weights : list cell -> list (option R)) (batch : option Z)
  (sp : splitter) : list (abt_view * abt_view) * option exn :=
  splitter_loop weights batch sp (py_range 1 (1 + sp_folds sp)).

(** ** Frames as shared objects

    [_ABTDataset.__init__] keeps a reference to the frame it is given and
    assigns the imputed column in place.  The heap of frames is a list
    indexed by location. *)
Definition store := list frame.

Fixpoint store_set (st : store) (l : nat) (d : frame) : store :=
  match st, l with
  | [], _ => []
  | _ :: tl, O => d :: tl
  | x :: tl, S l' => x :: store_set tl l' d
  end.

Definition abt_init_st (weights : list cell -> list (option R))
  (st : store) (l : nat) : pyres abt_view * store :=
  match nth_error st l with
  | None => (Err KeyError, st)
  | Some d =>
      if negb (has_col d "infection_momentum") then (Err AttributeError, st)
      else
        let st' := store_set st l (abt_impute d) in
        (abt_matrices weights (abt_impute d), st')
  end.

(** [_make_dataset]: [sub.copy()] is a fresh object handed to the view. *)
Definition make_dataset_st (weights : list cell -> list (option R))
  (st : store) (l : nat) (fs : list Z) : pyres abt_view * store :=
  match nth_error st l with
  | None => (Err KeyError, st)
  | Some d =>
      if has_col d "__fold" then
        abt_init_st weights (app st [fold_subset d fs]) (List.length st)
      else (Err KeyError, st)
  end.

(** ** [RepeatedStratifiedGroupKFoldOrchestrator] *)

Record orch := mkOrch {
  o_data : frame;
  o_folds : Z;
  o_repeats : Z;
  o_seed : Z
}.

(** [__init__]: [pd.read_csv(srcfile)] is the given frame; the arguments
    are stored as they are. *)
Definition orch_init (csv : frame) (folds repeats seed : Z) : pyres orch :=
  Ok (mkOrch csv folds repeats seed).

(** [np.random.seed(s)] accepts only seeds in [[0, 2**32 - 1]] and raises
    [ValueError] otherwise. *)
Definition np_seed_ok (s : Z) : bool := (0 <=? s) && (s <=? 2 ^ 32 - 1).

(** [torch.manual_seed(s)] accepts a seed that fits an unsigned or a signed
    64-bit integer, [[-2**63, 2**64 - 1]], and raises [RuntimeError]
    otherwise. *)
Definition torch_seed_ok (s : Z) : bool := (- 2 ^ 63 <=? s) && (s <=? 2 ^ 64 - 1).

Section Orchestrator.

(** The generators of [random], [numpy.random] and [torch]: a state type,
    the state set by [seed(s)], the body of [random.sample(range(n), k)]
    once its range check passed (the [k] drawn numbers and the new state),
    and [DataFrame.sample(frac=1, random_state=rs)] (a permutation of the
    rows drawn from a fresh [RandomState(rs)]). *)
Variable rng : Type.
Variable seed_rng : Z -> rng.
Variable sample_draw : rng -> Z -> Z -> list Z * rng.
Variable shuffle : Z -> list row -> list row.

Record gstate := mkG {
  py_state : rng;
  np_state : rng;
  torch_state : rng
}.

(** [random.sample(range(n), k)] *)
Definition py_sample (g : rng) (n k : Z) : pyres (list Z) * rng :=
  if (0 <=? k) && (k <=? n) then
    let (xs, g') := sample_draw g n k in (Ok xs, g')
  else (Err ValueError, g).

Definition shuffled (d : frame) (rs : Z) : frame :=
  mkFrame (fcols d) (shuffle rs (frows d)).

Fixpoint repeat_loop (d : frame) (folds : Z) (seeds : list Z)
  : list splitter * option exn :=
  match seeds with
  | [] => ([], None)
  | rs :: tl =>
      match splitter_init (shuffled d rs) folds with
      | Err e => ([], Some e)
      | Ok sp => let (ys, e) := repeat_loop d folds tl in (sp :: ys, e)
      end
  end.

(** [__iter__]; [with_torch] is the torch_data.py variant, which first
    calls [torch.manual_seed].  Then [np.random.seed], [random.seed] (which
    takes any integer) and the draw of the sub-seeds; a seed that [torch] or
    numpy refuses raises before anything is drawn. *)
Definition orch_iter (with_torch : bool) (o : orch) (g : gstate)
  : (list splitter * option exn) * gstate :=
  let S := o_seed o in
  if with_torch && negb (torch_seed_ok S) then (([], Some RuntimeError), g)
  else
    let tst := if with_torch then seed_rng S else torch_state g in
    if negb (np_seed_ok S) then (([], Some ValueError), mkG (py_state g) (np_state g) tst)
    else
      match py_sample (seed_rng S) 1000 (o_repeats o) with
      | (Err e, gp) => (([], Some e), mkG gp (seed_rng S) tst)
      | (Ok seeds, gp) => (repeat_loop (o_data o) (o_folds o) seeds, mkG gp (seed_rng S) tst)
      end.

(** The fold contents of every yielded repeat. *)
Definition fold_contents (weights : list cell -> list (option R)) (batch : option Z)
  (with_torch : bool) (o : orch) (g : gstate)
  : list (list (abt_view * abt_view) * option exn) * option exn :=
  let '((sps, e), _) := orch_iter with_torch o g in
  (map (splitter_iter weights batch) sps, e).

End Orchestrator.

Arguments mkG {rng} _ _ _.
Arguments py_sample {rng} _ _ _ _.
Arguments orch_iter {rng} _ _ _ _ _ _.
Arguments fold_contents {rng} _ _ _ _ _ _ _ _.

(** ** [_StratifiedGroupKFoldOrchestrator.__worker_init_fn__] (torch_data.py)

    [np_seed = torch_seed // 2**32-1] parses as [(torch_seed // 2**32) - 1];
    then [random.seed(torch_seed)] and [np.random.seed(np_seed)], which
    accepts only seeds in [[0, 2**32 - 1]] and raises [ValueError] otherwise.
    The result is the seed given to [random] and the seed given to numpy (or
    the error numpy raises). *)

Definition worker_init_fn (torch_seed : Z) : Z * pyres Z :=
  let np_seed := torch_seed / 2 ^ 32 - 1 in
  (torch_seed, if np_seed_ok np_seed then Ok np_seed else Err ValueError).

(** ** Concrete inputs

    A row of the ABT with the given keys, momentum and population, and 0 in
    every other column; a frame with all the columns the code reads. *)
Definition mk_row (county state momentum pop : cell) : row :=
  fun c =>
    if String.eqb c "county_fip" then county
    else if String.eqb c "state_code" then state
    else if String.eqb c "infection_momentum" then momentum
    else if String.eqb c "acs_pop_total" then pop
    else Some 0%Q.

Definition abt_columns : list string :=
  ["county_fip"; "state_code"; "acs_pop_total"] ++ target_cols ++ feature_cols.

Definition mk_frame (rs : list row) : frame := mkFrame abt_columns rs.

(** A stand-in for the generators, to run the orchestrator on concrete
    inputs: the state is an integer, [random.sample(range(n), k)] returns
    [0 .. k-1], and the shuffle keeps the row order. *)
Definition demo_seed (s : Z) : Z := s.
Definition demo_sample_draw (g n k : Z) : list Z * Z := (py_range 0 k, g + k).
Definition demo_shuffle (rs : Z) (rows : list row) : list row := rows.

(** Three rows of two counties of one state; the first county has a
    missing momentum. *)
Definition demo_frame : frame :=
  mk_frame [mk_row (Some 1%Q) (Some 1%Q) None (Some 9%Q);
            mk_row (Some 2%Q) (Some 1%Q) (Some 2%Q) (Some 16%Q);
            mk_row (Some 1%Q) (Some 1%Q) (Some 3%Q) (Some 9%Q)].

Definition demo_orch : orch := mkOrch demo_frame 2 1 0.

(** The splitter of [demo_frame] with two folds. *)
Definition demo_repeat : splitter :=
  match splitter_init demo_frame 2 with
  | Ok sp => sp
  | Err _ => mkSplitter 0 (mkFrame [] [])
  end.

(** The first row of [demo_repeat]. *)
Definition demo_merged_row : row := hd (fun _ => None) (frows (sp_data demo_repeat)).

(** A county whose population is missing, and one whose population is 0. *)
Definition nopop_frame : frame :=
  mk_frame [mk_row (Some 1%Q) (Some 1%Q) (Some 1%Q) (Some 4%Q);
            mk_row (Some 2%Q) (Some 1%Q) (Some 1%Q) None].

Definition zero_pop_frame : frame :=
  mk_frame [mk_row (Some 1%Q) (Some 1%Q) (Some 1%Q) (Some 0%Q)].



(** ** Generic facts *)

Lemma cell_eqb_refl : forall c, cell_eqb c c = true.
Proof. intros [q|]; simpl; [apply Qeq_bool_refl | reflexivity]. Qed.

Lemma cell_eqb_sym : forall a b, cell_eqb a b = cell_eqb b a.
Proof.
  intros [x|] [y|]; simpl; try reflexivity.
  destruct (Qeq_bool x y) eqn:E1, (Qeq_bool y x) eqn:E2; try reflexivity.
  - apply Qeq_bool_iff in E1. apply Qeq_sym, Qeq_bool_iff in E1. congruence.
  - apply Qeq_bool_iff in E2. apply Qeq_sym, Qeq_bool_iff in E2. congruence.
Qed.

Lemma cell_eqb_trans : forall a b c,
  cell_eqb a b = true -> cell_eqb b c = true -> cell_eqb a c = true.
Proof.
  intros [x|] [y|] [z|]; simpl; try discriminate; try reflexivity.
  intros H1 H2. apply Qeq_bool_iff in H1, H2. apply Qeq_bool_iff.
  now rewrite H1.
Qed.

Lemma key_eqb_refl : forall k, key_eqb k k = true.
Proof. intros [a b]. unfold key_eqb; simpl. now rewrite !cell_eqb_refl. Qed.

Lemma key_eqb_sym : forall a b, key_eqb a b = key_eqb b a.
Proof.
  intros [a1 a2] [b1 b2]. unfold key_eqb; simpl.
  now rewrite (cell_eqb_sym a1), (cell_eqb_sym a2).
Qed.

Lemma key_eqb_trans : forall a b c,
  key_eqb a b = true -> key_eqb b c = true -> key_eqb a c = true.
Proof.
  intros [a1 a2] [b1 b2] [c1 c2]. unfold key_eqb; simpl.
  intros H1 H2. apply andb_true_iff in H1 as [H1 H1'].
  apply andb_true_iff in H2 as [H2 H2']. apply andb_true_iff.
  split; eapply cell_eqb_trans; eauto.
Qed.

(** A list of keys no two of which are equal as pandas keys. *)
Fixpoint distinct_keys (l : list key) : Prop :=
  match l with
  | [] => True
  | k :: tl => (forall k', In k' tl -> key_eqb k k' = false) /\ distinct_keys tl
  end.

Lemma drop_duplicates_fresh : forall ks seen k s,
  In k (drop_duplicates seen ks) -> In s seen -> key_eqb k s = false.
Proof.
  induction ks as [|x ks IH]; simpl; intros seen k s Hk Hs; [contradiction|].
  destruct (existsb (key_eqb x) seen) eqn:E.
  - eauto.
  - destruct Hk as [<-|Hk].
    + destruct (key_eqb x s) eqn:E'; [|reflexivity].
      assert (existsb (key_eqb x) seen = true) by (apply existsb_exists; eauto).
      congruence.
    + eapply IH; [exact Hk | right; exact Hs].
Qed.

Lemma drop_duplicates_distinct : forall ks seen,
  distinct_keys (drop_duplicates seen ks).
Proof.
  induction ks as [|x ks IH]; simpl; intros seen; [exact I|].
  destruct (existsb (key_eqb x) seen) eqn:E; [apply IH|].
  simpl. split; [|apply IH].
  intros k' Hk'. rewrite key_eqb_sym.
  eapply drop_duplicates_fresh; [exact Hk' | left; reflexivity].
Qed.

(** Every key is kept, or an equal key was seen before. *)
Lemma drop_duplicates_complete : forall ks seen k,
  In k ks ->
  (exists k', In k' (drop_duplicates seen ks) /\ key_eqb k k' = true) \/
  (exists s, In s seen /\ key_eqb k s = true).
Proof.
  induction ks as [|x ks IH]; simpl; intros seen k Hk; [contradiction|].
  destruct (existsb (key_eqb x) seen) eqn:E.
  - destruct Hk as [->|Hk]; [|now apply IH].
    apply existsb_exists in E. right. exact E.
  - destruct Hk as [->|Hk].
    + left. exists k. split; [now left | apply key_eqb_refl].
    + destruct (IH (x :: seen) k Hk) as [[k' [H1 H2]]|[s [[<-|Hs] H2]]].
      * left. exists k'. split; [now right | exact H2].
      * left. exists x. split; [now left | exact H2].
      * right. eauto.
Qed.

Lemma assign_folds_keys : forall K ks prev,
  map fst (assign_folds K prev ks) = ks.
Proof.
  induction ks as [|k ks IH]; simpl; intros prev; [reflexivity|].
  now rewrite IH.
Qed.

Lemma distinct_entries_eq : forall (L : list (key * cell)) e1 e2,
  distinct_keys (map fst L) -> In e1 L -> In e2 L ->
  key_eqb (fst e1) (fst e2) = true -> e1 = e2.
Proof.
  induction L as [|e L IH]; simpl; intros e1 e2 HD H1 H2 Heq;
    [contradiction|].
  destruct HD as [Hd Hdl].
  destruct H1 as [<-|H1], H2 as [<-|H2]; try reflexivity.
  - rewrite (Hd (fst e2)) in Heq; [discriminate|].
    now apply in_map.
  - rewrite key_eqb_sym, (Hd (fst e1)) in Heq; [discriminate|].
    now apply in_map.
  - eauto.
Qed.

Lemma fold_lookup_distinct : forall K rs,
  distinct_keys (map fst (fold_lookup K rs)).
Proof.
  intros. unfold fold_lookup. rewrite assign_folds_keys.
  apply drop_duplicates_distinct.
Qed.

Lemma fold_lookup_complete : forall K rs r,
  In r rs -> exists e, In e (fold_lookup K rs) /\ key_eqb (gkey r) (fst e) = true.
Proof.
  intros K rs r Hr. unfold fold_lookup.
  destruct (drop_duplicates_complete (map gkey rs) [] (gkey r) (in_map _ _ _ Hr))
    as [[k' [H1 H2]]|[s [[] _]]].
  rewrite <- (assign_folds_keys K (drop_duplicates [] (map gkey rs)) []) in H1.
  apply in_map_iff in H1 as [e [<- He]]. eauto.
Qed.

(** The merged frame: each row of the input with the fold of its key. *)
Lemma merge_lookup_unique : forall rs lookup,
  distinct_keys (map fst lookup) ->
  (forall r, In r rs -> exists e, In e lookup /\ key_eqb (gkey r) (fst e) = true) ->
  exists fs, merge_lookup rs lookup = map (fun p => with_fold (fst p) (snd p)) (combine rs fs)
        /\ List.length fs = List.length rs
        /\ forall r f, In (r, f) (combine rs fs) ->
             exists e, In e lookup /\ key_eqb (fst e) (gkey r) = true /\ f = snd e.
Proof.
  intros rs lookup Hd. induction rs as [|r rs IH]; intros Hc.
  - exists []. simpl. repeat split; intros ? ? [].
  - destruct IH as [fs [Hm [Hl Hf]]]; [intros; apply Hc; now right|].
    destruct (Hc r (or_introl eq_refl)) as [e [He Hk]].
    assert (Hfilt : filter (fun e' => key_eqb (fst e') (gkey r)) lookup = [e]).
    { clear -Hd He Hk. induction lookup as [|x lookup IHl]; [contradiction|].
      simpl in *. destruct Hd as [Hx Hd].
      destruct He as [<-|He].
      - rewrite key_eqb_sym, Hk.
        f_equal. clear IHl. induction lookup as [|y lookup IH2]; [reflexivity|].
        simpl. destruct (key_eqb (fst y) (gkey r)) eqn:E.
        + exfalso. assert (key_eqb (fst x) (fst y) = true).
          { eapply key_eqb_trans; [rewrite key_eqb_sym; exact Hk|].
            rewrite key_eqb_sym. exact E. }
          rewrite (Hx (fst y)) in H; [discriminate | now left].
        + apply IH2; [intros k' Hk'; apply Hx; now right | apply Hd].
      - destruct (key_eqb (fst x) (gkey r)) eqn:E.
        + exfalso. assert (key_eqb (fst x) (fst e) = true).
          { eapply key_eqb_trans; [exact E|]. exact Hk. }
          rewrite (Hx (fst e)) in H; [discriminate | now apply in_map].
        + apply IHl; assumption. }
    exists (snd e :: fs). simpl. split; [|split].
    + rewrite Hfilt. simpl. f_equal. exact Hm.
    + now rewrite Hl.
    + intros r' f [Heq|Hin].
      * inversion Heq; subst. exists e. rewrite key_eqb_sym. auto.
      * now apply Hf.
Qed.

Lemma gkey_with_fold : forall r f, gkey (with_fold r f) = gkey r.
Proof. reflexivity. Qed.

Lemma with_fold_fold : forall r f, with_fold r f "__fold" = f.
Proof. reflexivity. Qed.

Lemma splitter_init_rows : forall d K sp,
  splitter_init d K = Ok sp ->
  sp_folds sp = K /\
  exists fs,
    frows (sp_data sp) = map (fun p => with_fold (fst p) (snd p)) (combine (frows d) fs)
    /\ List.length fs = List.length (frows d)
    /\ forall r f, In (r, f) (combine (frows d) fs) ->
         exists e, In e (fold_lookup K (frows d)) /\
                   key_eqb (fst e) (gkey r) = true /\ f = snd e.
Proof.
  intros d K sp H. unfold splitter_init in H.
  destruct (has_cols d _); [|discriminate].
  destruct (Nat.eqb _ _); [|discriminate].
  inversion H; subst; clear H. simpl. split; [reflexivity|].
  apply merge_lookup_unique;
    [apply fold_lookup_distinct | intros; now apply fold_lookup_complete].
Qed.

(** Every row of the merged frame is a row of the input with the fold of
    the lookup entry of its key. *)
Lemma splitter_row_origin : forall d K sp m,
  splitter_init d K = Ok sp -> In m (frows (sp_data sp)) ->
  exists r e, In r (frows d) /\ In e (fold_lookup K (frows d)) /\
    key_eqb (fst e) (gkey r) = true /\ m = with_fold r (snd e).
Proof.
  intros d K sp m H Hm.
  destruct (splitter_init_rows d K sp H) as [_ [fs [Hrows [_ Hf]]]].
  rewrite Hrows in Hm. apply in_map_iff in Hm as [[r f] [<- Hin]].
  destruct (Hf r f Hin) as [e [He [Hk ->]]].
  exists r, e. repeat split; auto.
  now apply in_combine_l in Hin.
Qed.

Lemma splitter_same_key_same_fold : forall d K sp m1 m2,
  splitter_init d K = Ok sp ->
  In m1 (frows (sp_data sp)) -> In m2 (frows (sp_data sp)) ->
  key_eqb (gkey m1) (gkey m2) = true -> m1 "__fold" = m2 "__fold".
Proof.
  intros d K sp m1 m2 H H1 H2 Hk.
  destruct (splitter_row_origin d K sp m1 H H1) as [r1 [e1 [_ [He1 [Hk1 ->]]]]].
  destruct (splitter_row_origin d K sp m2 H H2) as [r2 [e2 [_ [He2 [Hk2 ->]]]]].
  rewrite !gkey_with_fold in Hk. rewrite !with_fold_fold.
  assert (Hee : key_eqb (fst e1) (fst e2) = true).
  { eapply key_eqb_trans; [exact Hk1|].
    eapply key_eqb_trans; [exact Hk|]. rewrite key_eqb_sym. exact Hk2. }
  now rewrite (distinct_entries_eq _ e1 e2 (fold_lookup_distinct K (frows d)) He1 He2 Hee).
Qed.

Lemma Qeq_bool_inject_Z : forall a b, Qeq_bool (inject_Z a) (inject_Z b) = (a =? b).
Proof.
  intros a b. destruct (Qeq_bool _ _) eqn:E, (a =? b) eqn:E'; try reflexivity.
  - apply Qeq_bool_iff in E. apply (proj1 (inject_Z_injective a b)) in E.
    apply Z.eqb_neq in E'.
    exfalso. exact (E' E).
  - apply Z.eqb_eq in E'. subst. now rewrite Qeq_bool_refl in E.
Qed.

Lemma isin_train_test_excl : forall c K f,
  isin_cell c (train_folds K f) = true -> isin_cell c [f] = true -> False.
Proof.
  intros [q|] K f Htr Hte; [|discriminate].
  simpl in Hte. rewrite orb_false_r in Hte.
  apply existsb_exists in Htr as [z [Hz Hq]].
  unfold train_folds in Hz. apply filter_In in Hz as [_ Hz].
  apply Qeq_bool_iff in Hq, Hte.
  assert (Hzf : Qeq_bool (inject_Z z) (inject_Z f) = true).
  { apply Qeq_bool_iff. rewrite <- Hq. exact Hte. }
  rewrite Qeq_bool_inject_Z in Hzf. apply Z.eqb_eq in Hzf. subst.
  now rewrite Z.eqb_refl in Hz.
Qed.

(** Group integrity of one splitter. *)
Lemma splitter_group_integrity : forall d K sp,
  splitter_init d K = Ok sp ->
  (forall m1 m2, In m1 (frows (sp_data sp)) -> In m2 (frows (sp_data sp)) ->
     key_eqb (gkey m1) (gkey m2) = true -> m1 "__fold" = m2 "__fold") /\
  (forall f m1 m2,
     In m1 (frows (fst (fold_split sp f))) -> In m2 (frows (snd (fold_split sp f))) ->
     key_eqb (gkey m1) (gkey m2) = false).
Proof.
  intros d K sp H. split.
  - intros; eapply splitter_same_key_same_fold; eauto.
  - intros f m1 m2 H1 H2. simpl in H1, H2.
    apply filter_In in H1 as [H1 Hi1]. apply filter_In in H2 as [H2 Hi2].
    destruct (key_eqb (gkey m1) (gkey m2)) eqn:Hk; [|reflexivity].
    exfalso. rewrite (splitter_same_key_same_fold d K sp m1 m2 H H1 H2 Hk) in Hi1.
    exact (isin_train_test_excl _ _ _ Hi1 Hi2).
Qed.

(** ** Completeness of the fold split *)

Lemma py_range_In : forall a b z, In z (py_range a b) <-> a <= z < b.
Proof.
  intros a b z. unfold py_range. rewrite in_map_iff. split.
  - intros [n [<- Hn]]. apply in_seq in Hn. lia.
  - intros Hz. exists (Z.to_nat (z - a)). split; [lia|].
    apply in_seq. lia.
Qed.

Lemma NoDup_map_inj {A B} (f : A -> B) (l : list A) :
  (forall x y, f x = f y -> x = y) -> NoDup l -> NoDup (map f l).
Proof.
  intros Hf Hl. induction Hl as [|x l Hx Hl IH]; simpl; constructor; auto.
  intros Hin. apply in_map_iff in Hin as [y [Hy Hin]].
  apply Hf in Hy. subst. contradiction.
Qed.

Lemma py_range_NoDup : forall a b, NoDup (py_range a b).
Proof.
  intros. apply NoDup_map_inj; [intros; lia | apply seq_NoDup].
Qed.

(** Folds assigned to keys with a stratum lie in [1, folds]. *)
Lemma assign_folds_range : forall K ks prev e,
  1 <= K -> In e (assign_folds K prev ks) -> snd (fst e) <> None ->
  exists z, snd e = Some (inject_Z z) /\ 1 <= z <= K.
Proof.
  intros K ks. induction ks as [|k ks IH]; simpl; intros prev e HK He Hs;
    [contradiction|].
  destruct He as [<-|He]; [|eapply IH; eauto].
  simpl in *. unfold fold_of. destruct (snd k) as [q|]; [|contradiction].
  eexists. split; [reflexivity|].
  unfold np_mod. destruct (K =? 0) eqn:E; [lia|].
  pose proof (Z.mod_pos_bound (Z.of_nat (index_in_stratum prev (Some q))) K).
  lia.
Qed.

Lemma splitter_fold_range : forall d K sp m,
  1 <= K -> splitter_init d K = Ok sp -> In m (frows (sp_data sp)) ->
  m "state_code" <> None ->
  exists z, m "__fold" = Some (inject_Z z) /\ 1 <= z <= K.
Proof.
  intros d K sp m HK H Hm Hs.
  destruct (splitter_row_origin d K sp m H Hm) as [r [e [_ [He [Hk ->]]]]].
  rewrite with_fold_fold. eapply assign_folds_range; [exact HK | exact He |].
  intros Hn. apply Hs. change (with_fold r (snd e) "state_code") with (r "state_code").
  unfold key_eqb in Hk. apply andb_true_iff in Hk as [_ Hk].
  unfold gkey in Hk; simpl in Hk. rewrite Hn in Hk.
  destruct (r "state_code"); [discriminate | reflexivity].
Qed.

Lemma isin_fold_test : forall z f, isin_cell (Some (inject_Z z)) [f] = (z =? f).
Proof. intros. simpl. now rewrite orb_false_r, Qeq_bool_inject_Z. Qed.

Lemma isin_fold_train : forall z K f,
  1 <= z <= K -> isin_cell (Some (inject_Z z)) (train_folds K f) = negb (z =? f).
Proof.
  intros z K f Hz. simpl.
  destruct (existsb _ _) eqn:E.
  - apply existsb_exists in E as [y [Hy Hq]].
    rewrite Qeq_bool_inject_Z in Hq. apply Z.eqb_eq in Hq. subst y.
    unfold train_folds in Hy. apply filter_In in Hy as [_ Hy]. now rewrite Hy.
  - destruct (z =? f) eqn:Ezf; [reflexivity|]. exfalso.
    assert (Hin : In z (train_folds K f)).
    { apply filter_In. split; [apply py_range_In; lia | now rewrite Ezf]. }
    assert (existsb (fun y => Qeq_bool (inject_Z z) (inject_Z y)) (train_folds K f) = true).
    { apply existsb_exists. exists z. split; [exact Hin | apply Qeq_bool_refl]. }
    congruence.
Qed.

Lemma filter_length_compl {A} (p q : A -> bool) (l : list A) :
  (forall x, In x l -> q x = negb (p x)) ->
  (List.length (filter p l) + List.length (filter q l) = List.length l)%nat.
Proof.
  induction l as [|x l IH]; simpl; intros H; [reflexivity|].
  rewrite (H x (or_introl eq_refl)).
  destruct (p x); simpl; rewrite <- IH by auto; lia.
Qed.

Lemma concat_single_label {A} (lab : A -> Z) (x : A) (g : Z -> list A) (zs : list Z) :
  ~ In (lab x) zs ->
  concat (map (fun z => (if lab x =? z then [x] else []) ++ g z) zs) = concat (map g zs).
Proof.
  induction zs as [|z zs IH]; simpl; intros Hn; [reflexivity|].
  destruct (lab x =? z) eqn:E; [apply Z.eqb_eq in E; subst; tauto|].
  simpl. rewrite IH; [reflexivity | tauto].
Qed.

Lemma perm_concat_label {A} (lab : A -> Z) (x : A) (g : Z -> list A) (zs : list Z) :
  NoDup zs -> In (lab x) zs ->
  Permutation (concat (map (fun z => (if lab x =? z then [x] else []) ++ g z) zs))
              (x :: concat (map g zs)).
Proof.
  intros Hd. induction Hd as [|z zs Hz Hd IH]; simpl; intros Hin; [contradiction|].
  destruct (lab x =? z) eqn:E.
  - apply Z.eqb_eq in E. subst z. simpl.
    rewrite concat_single_label by assumption. reflexivity.
  - destruct Hin as [Hin|Hin]; [subst; now rewrite Z.eqb_refl in E|].
    simpl. rewrite (IH Hin). apply Permutation_sym, Permutation_middle.
Qed.

(** Splitting a list by a label taking values in [zs]: the blocks, one per
    label, are a permutation of the list. *)
Lemma perm_concat_filter {A} (lab : A -> Z) (l : list A) (zs : list Z) :
  NoDup zs -> (forall x, In x l -> In (lab x) zs) ->
  Permutation (concat (map (fun z => filter (fun x => lab x =? z) l) zs)) l.
Proof.
  intros Hd. induction l as [|x l IH]; intros Hl.
  - simpl. induction zs as [|z zs IHz]; simpl; [reflexivity|].
    inversion Hd; subst. now apply IHz.
  - rewrite (map_ext (fun z => filter (fun y => lab y =? z) (x :: l))
               (fun z => (if lab x =? z then [x] else []) ++ filter (fun y => lab y =? z) l))
      by (intros z; simpl; destruct (lab x =? z); reflexivity).
    eapply perm_trans; [apply perm_concat_label; auto; apply Hl; now left|].
    apply perm_skip, IH. intros y Hy. apply Hl. now right.
Qed.

(** Completeness of one splitter when every row has a stratum. *)
Lemma splitter_completeness : forall d K sp,
  1 <= K -> splitter_init d K = Ok sp ->
  (forall r, In r (frows d) -> r "state_code" <> None) ->
  List.length (frows (sp_data sp)) = List.length (frows d) /\
  (forall f, (List.length (frows (fst (fold_split sp f))) +
              List.length (frows (snd (fold_split sp f))) =
              List.length (frows (sp_data sp)))%nat) /\
  Permutation (concat (map (fun f => frows (snd (fold_split sp f))) (py_range 1 (1 + K))))
              (frows (sp_data sp)).
Proof.
  intros d K sp HK H Hs.
  assert (Hrange : forall m, In m (frows (sp_data sp)) ->
            exists z, m "__fold" = Some (inject_Z z) /\ 1 <= z <= K).
  { intros m Hm. eapply splitter_fold_range; eauto.
    destruct (splitter_row_origin d K sp m H Hm) as [r [e [Hr [_ [_ ->]]]]].
    exact (Hs r Hr). }
  destruct (splitter_init_rows d K sp H) as [HK' [fs [Hrows [Hl _]]]].
  split; [|split].
  - rewrite Hrows, length_map, length_combine, Hl. lia.
  - intros f. simpl. apply filter_length_compl.
    intros m Hm. destruct (Hrange m Hm) as [z [-> Hz]].
    rewrite isin_fold_test, HK', isin_fold_train by exact Hz.
    now rewrite negb_involutive.
  - set (lab := fun m : row => match m "__fold" with Some q => Qnum q | None => 0 end).
    rewrite (map_ext_in (fun f => frows (snd (fold_split sp f)))
               (fun f => filter (fun m => lab m =? f) (frows (sp_data sp)))).
    + apply perm_concat_filter; [apply py_range_NoDup|].
      intros m Hm. destruct (Hrange m Hm) as [z [Hz Hzr]].
      unfold lab. rewrite Hz. change (Qnum (inject_Z z)) with z.
      apply py_range_In. lia.
    + intros f _. simpl. apply filter_ext_in. intros m Hm.
      destruct (Hrange m Hm) as [z [Hz _]]. unfold lab. rewrite Hz.
      rewrite isin_fold_test. reflexivity.
Qed.

(** ** Round-robin balance within a stratum *)

Lemma count_mod : forall K r N, (0 < K)%nat -> (r < K)%nat ->
  List.length (filter (fun i => Nat.eqb (i mod K) r) (seq 0 N)) =
  (N / K + (if Nat.ltb r (N mod K) then 1 else 0))%nat.
Proof.
  intros K r N HK Hr. induction N as [|N IH].
  - rewrite Nat.Div0.div_0_l, Nat.Div0.mod_0_l.
    destruct (Nat.ltb r 0) eqn:E; [apply Nat.ltb_lt in E; lia|]. reflexivity.
  - rewrite seq_S, filter_app, length_app, IH. simpl.
    pose proof (Nat.div_mod N K ltac:(lia)) as HD.
    pose proof (Nat.mod_upper_bound N K ltac:(lia)) as HM.
    destruct (Nat.eq_dec (N mod K + 1) K) as [Heq|Hne].
    + assert (Hq : (S N / K = N / K + 1)%nat)
        by (symmetry; apply (Nat.div_unique _ _ _ 0); lia).
      assert (Hr0 : (S N mod K = 0)%nat)
        by (symmetry; apply (Nat.mod_unique _ _ (N / K + 1)); lia).
      rewrite Hq, Hr0.
      destruct (Nat.ltb r (N mod K)) eqn:E1, (Nat.eqb (N mod K) r) eqn:E2,
               (Nat.ltb r 0) eqn:E3;
        rewrite ?Nat.ltb_lt, ?Nat.ltb_ge, ?Nat.eqb_eq, ?Nat.eqb_neq in *; simpl; lia.
    + assert (Hq : (S N / K = N / K)%nat)
        by (symmetry; apply (Nat.div_unique _ _ _ (N mod K + 1)); lia).
      assert (Hr0 : (S N mod K = N mod K + 1)%nat)
        by (symmetry; apply (Nat.mod_unique _ _ (N / K)); lia).
      rewrite Hq, Hr0.
      destruct (Nat.ltb r (N mod K)) eqn:E1, (Nat.eqb (N mod K) r) eqn:E2,
               (Nat.ltb r (N mod K + 1)) eqn:E3;
        rewrite ?Nat.ltb_lt, ?Nat.ltb_ge, ?Nat.eqb_eq, ?Nat.eqb_neq in *; simpl; lia.
Qed.

Lemma count_mod_floor_ceil : forall K r N, (0 < K)%nat -> (r < K)%nat ->
  let c := List.length (filter (fun i => Nat.eqb (i mod K) r) (seq 0 N)) in
  c = (N / K)%nat \/ c = ((N + K - 1) / K)%nat.
Proof.
  intros K r N HK Hr c. unfold c. rewrite count_mod by assumption.
  destruct (Nat.ltb r (N mod K)) eqn:E; [right | left; lia].
  apply Nat.ltb_lt in E.
  pose proof (Nat.div_mod N K ltac:(lia)) as HD.
  pose proof (Nat.mod_upper_bound N K ltac:(lia)) as HM.
  apply (Nat.div_unique _ _ _ (N mod K - 1)); lia.
Qed.

Lemma index_in_stratum_app : forall prev k s,
  index_in_stratum (prev ++ [k]) s =
  (index_in_stratum prev s + (if cell_eqb (snd k) s then 1 else 0))%nat.
Proof.
  intros. unfold index_in_stratum. rewrite filter_app, length_app.
  simpl. destruct (cell_eqb (snd k) s); reflexivity.
Qed.

Lemma index_in_stratum_eqv : forall prev a b,
  cell_eqb a b = true -> index_in_stratum prev a = index_in_stratum prev b.
Proof.
  intros prev a b Hab. unfold index_in_stratum. f_equal. apply filter_ext.
  intros k. destruct (cell_eqb (snd k) a) eqn:E1, (cell_eqb (snd k) b) eqn:E2;
    try reflexivity.
  - rewrite (cell_eqb_trans _ _ _ E1 Hab) in E2. discriminate.
  - rewrite cell_eqb_sym in Hab. rewrite (cell_eqb_trans _ _ _ E2 Hab) in E1.
    discriminate.
Qed.

Lemma index_in_stratum_cons : forall k ks s,
  index_in_stratum (k :: ks) s =
  ((if cell_eqb (snd k) s then 1 else 0) + index_in_stratum ks s)%nat.
Proof.
  intros. unfold index_in_stratum. simpl. destruct (cell_eqb (snd k) s); reflexivity.
Qed.

(** Inside a stratum, the lookup entries get the folds of the indices
    [0, 1, 2, ...] in their encounter order. *)
Lemma assign_folds_stratum : forall K q ks prev,
  map snd (filter (fun e => cell_eqb (snd (fst e)) (Some q)) (assign_folds K prev ks)) =
  map (fun i => Some (inject_Z (np_mod (Z.of_nat i) K + 1)))
      (seq (index_in_stratum prev (Some q)) (index_in_stratum ks (Some q))).
Proof.
  intros K q. induction ks as [|k ks IH]; intros prev; [reflexivity|].
  simpl. destruct (cell_eqb (snd k) (Some q)) eqn:E.
  - simpl. rewrite IH, index_in_stratum_app, index_in_stratum_cons, E. simpl.
    rewrite Nat.add_1_r. f_equal.
    unfold fold_of. destruct (snd k) as [q'|] eqn:Ek; [|discriminate].
    rewrite <- Ek, (index_in_stratum_eqv prev (snd k) (Some q)) by (rewrite Ek; exact E).
    reflexivity.
  - rewrite IH, index_in_stratum_app, index_in_stratum_cons, E. simpl.
    now rewrite Nat.add_0_r.
Qed.

Lemma length_filter_and_snd {A B} (p : A * B -> bool) (q : B -> bool) (l : list (A * B)) :
  List.length (filter (fun e => p e && q (snd e)) l) =
  List.length (filter q (map snd (filter p l))).
Proof.
  induction l as [|x l IH]; simpl; [reflexivity|].
  destruct (p x); simpl; [destruct (q (snd x)); simpl|]; rewrite IH; reflexivity.
Qed.

Lemma length_filter_map {A B} (g : A -> B) (q : B -> bool) (l : list A) :
  List.length (filter q (map g l)) = List.length (filter (fun x => q (g x)) l).
Proof.
  induction l as [|x l IH]; simpl; [reflexivity|].
  destruct (q (g x)); simpl; rewrite IH; reflexivity.
Qed.

(** Balance of the fold lookup: within stratum [q], fold [f] holds the
    floor or the ceiling of [N / K] of the [N] distinct groups. *)
Lemma fold_lookup_balance : forall K rs q f,
  1 <= K -> 1 <= f <= K ->
  let lk := fold_lookup K rs in
  let N := List.length (filter (fun e => cell_eqb (snd (fst e)) (Some q)) lk) in
  let c := List.length (filter (fun e => cell_eqb (snd (fst e)) (Some q) &&
                                     cell_eqb (snd e) (Some (inject_Z f))) lk) in
  Z.of_nat c = Z.of_nat N / K \/ Z.of_nat c = (Z.of_nat N + K - 1) / K.
Proof.
  intros K rs q f HK Hf lk N c.
  set (k := Z.to_nat K). set (r := Z.to_nat (f - 1)).
  assert (HKk : K = Z.of_nat k) by (unfold k; lia).
  assert (Hrk : (r < k)%nat) by (unfold r, k; lia).
  assert (HN : N = List.length (seq 0 (index_in_stratum (drop_duplicates [] (map gkey rs)) (Some q)))).
  { unfold N, lk, fold_lookup.
    rewrite <- (length_map snd), assign_folds_stratum, length_map. reflexivity. }
  rewrite length_seq in HN.
  assert (Hc : c = List.length (filter (fun i => Nat.eqb (i mod k) r)
                    (seq 0 (index_in_stratum (drop_duplicates [] (map gkey rs)) (Some q))))).
  { unfold c, lk, fold_lookup.
    rewrite (length_filter_and_snd (fun e : key * cell => cell_eqb (snd (fst e)) (Some q))
               (fun x => cell_eqb x (Some (inject_Z f)))), assign_folds_stratum.
    rewrite length_filter_map. f_equal. apply filter_ext. intros i. simpl.
    unfold np_mod. destruct (K =? 0) eqn:E0; [lia|].
    rewrite HKk, <- Nat2Z.inj_mod.
    rewrite Qeq_bool_inject_Z.
    destruct (Z.of_nat (i mod k) + 1 =? f) eqn:E1, (Nat.eqb (i mod k) r) eqn:E2;
      rewrite ?Z.eqb_eq, ?Z.eqb_neq, ?Nat.eqb_eq, ?Nat.eqb_neq in *;
      unfold r in *; lia. }
  destruct (count_mod_floor_ceil k r (index_in_stratum (drop_duplicates [] (map gkey rs)) (Some q))
              ltac:(lia) Hrk) as [H|H]; rewrite <- Hc, <- HN in H.
  - left. rewrite H, Nat2Z.inj_div, HKk. reflexivity.
  - right. rewrite H, Nat2Z.inj_div, HKk, Nat2Z.inj_sub by lia.
    rewrite Nat2Z.inj_add. reflexivity.
Qed.

(** ** Frames shared by reference *)

Lemma nth_error_store_set_other : forall st l d l',
  l <> l' -> nth_error (store_set st l d) l' = nth_error st l'.
Proof.
  induction st as [|x st IH]; intros l d l' Hne; [reflexivity|].
  destruct l as [|l], l' as [|l']; simpl; try reflexivity; [contradiction|].
  apply IH. lia.
Qed.

Lemma nth_error_store_set_same : forall st l d x,
  nth_error st l = Some x -> nth_error (store_set st l d) l = Some d.
Proof.
  induction st as [|y st IH]; intros l d x H; [destruct l; discriminate|].
  destruct l as [|l]; simpl in *; [reflexivity | eapply IH; eauto].
Qed.

(** Building a view through [_make_dataset] changes no frame that existed
    before: the view imputes in place on the fresh copy. *)
Lemma make_dataset_st_frame : forall weights st l fs l',
  (l' < List.length st)%nat ->
  nth_error (snd (make_dataset_st weights st l fs)) l' = nth_error st l'.
Proof.
  intros weights st l fs l' Hl'. unfold make_dataset_st.
  destruct (nth_error st l) as [d|]; [|reflexivity].
  destruct (has_col d "__fold"); [|reflexivity].
  unfold abt_init_st. rewrite nth_error_app2, Nat.sub_diag by lia. simpl.
  destruct (negb (has_col (fold_subset d fs) "infection_momentum")); simpl.
  - now rewrite nth_error_app1.
  - rewrite nth_error_store_set_other by lia. now rewrite nth_error_app1.
Qed.

(** [_ABTDataset.__init__] replaces the frame it is given by its imputed
    version. *)
Lemma abt_init_st_frame : forall weights st l d,
  nth_error st l = Some d -> has_col d "infection_momentum" = true ->
  nth_error (snd (abt_init_st weights st l)) l = Some (abt_impute d).
Proof.
  intros weights st l d Hd Hm. unfold abt_init_st. rewrite Hd, Hm. simpl.
  eapply nth_error_store_set_same; eauto.
Qed.

Lemma splitter_init_error : forall d K e,
  splitter_init d K = Err e -> e = KeyError \/ e = AssertionError.
Proof.
  intros d K e H. unfold splitter_init in H.
  destruct (has_cols d _); [destruct (Nat.eqb _ _)|]; inversion H; auto.
Qed.

(** numpy's seed range lies inside torch's. *)
Lemma np_seed_torch_ok : forall s, np_seed_ok s = true -> torch_seed_ok s = true.
Proof.
  intros s H. unfold np_seed_ok, torch_seed_ok in *.
  change (2 ^ 32) with 4294967296 in H.
  change (2 ^ 63) with 9223372036854775808. change (2 ^ 64) with 18446744073709551616.
  apply andb_true_iff in H as [H1 H2]. apply Z.leb_le in H1, H2.
  apply andb_true_iff. split; apply Z.leb_le; lia.
Qed.

Lemma train_folds_one : forall d, fold_subset d (train_folds 1 1) = mkFrame (fcols d) [].
Proof.
  intros d. unfold fold_subset. f_equal. cbn [train_folds py_range filter].
  induction (frows d) as [|r rs IH]; simpl; [reflexivity|].
  destruct (r "__fold"); simpl; exact IH.
Qed.

Lemma splitter_iter_no_folds : forall weights batch sp,
  sp_folds sp <= 0 -> splitter_iter weights batch sp = ([], None).
Proof.
  intros weights batch sp H. unfold splitter_iter, py_range.
  replace (Z.to_nat (1 + sp_folds sp - 1)) with 0%nat by lia. reflexivity.
Qed.

(** ** The orchestrator *)

Section OrchestratorFacts.

Variable rng : Type.
Variable seed_rng : Z -> rng.
Variable sample_draw : rng -> Z -> Z -> list Z * rng.
Variable shuffle : Z -> list row -> list row.

(** [DataFrame.sample(frac=1)] is a permutation of the rows, and
    [random.sample(population, k)] returns [k] elements. *)
Hypothesis shuffle_perm : forall rs l, Permutation (shuffle rs l) l.
Hypothesis sample_draw_length : forall g n k,
  0 <= k <= n -> List.length (fst (sample_draw g n k)) = Z.to_nat k.

Lemma repeat_loop_origin : forall d K seeds sp,
  In sp (fst (repeat_loop shuffle d K seeds)) ->
  exists rs, splitter_init (shuffled shuffle d rs) K = Ok sp.
Proof.
  intros d K seeds. induction seeds as [|rs seeds IH]; simpl; intros sp Hsp;
    [contradiction|].
  destruct (splitter_init (shuffled shuffle d rs) K) eqn:E; [|contradiction].
  revert Hsp. destruct (repeat_loop shuffle d K seeds) as [ys e] eqn:Er.
  intros Hsp. simpl in Hsp. destruct Hsp as [<-|Hsp]; [eauto|].
  apply IH. simpl. exact Hsp.
Qed.

(** With a seed numpy accepts, [__iter__] seeds the generators and draws
    the sub-seeds. *)
Lemma orch_iter_seed_ok : forall wt o g,
  np_seed_ok (o_seed o) = true ->
  orch_iter seed_rng sample_draw shuffle wt o g =
  match py_sample sample_draw (seed_rng (o_seed o)) 1000 (o_repeats o) with
  | (Err e, gp) =>
      (([], Some e), mkG gp (seed_rng (o_seed o))
                         (if wt then seed_rng (o_seed o) else torch_state rng g))
  | (Ok seeds, gp) =>
      (repeat_loop shuffle (o_data o) (o_folds o) seeds,
       mkG gp (seed_rng (o_seed o)) (if wt then seed_rng (o_seed o) else torch_state rng g))
  end.
Proof.
  intros wt o g H. unfold orch_iter. rewrite (np_seed_torch_ok _ H), H.
  destruct wt; reflexivity.
Qed.

(** With a seed numpy refuses, [__iter__] raises before drawing anything:
    [RuntimeError] when torch refuses it too, [ValueError] otherwise; only
    torch may have been reseeded. *)
Lemma orch_iter_seed_bad : forall wt o g,
  np_seed_ok (o_seed o) = false ->
  orch_iter seed_rng sample_draw shuffle wt o g =
  (([], Some (if wt && negb (torch_seed_ok (o_seed o)) then RuntimeError else ValueError)),
   if wt && torch_seed_ok (o_seed o)
   then mkG (py_state rng g) (np_state rng g) (seed_rng (o_seed o)) else g).
Proof.
  intros wt o [gp gn gt] H. unfold orch_iter. rewrite H.
  destruct wt, (torch_seed_ok (o_seed o)); reflexivity.
Qed.

Lemma orch_iter_origin : forall wt o g sp,
  In sp (fst (fst (orch_iter seed_rng sample_draw shuffle wt o g))) ->
  exists rs, splitter_init (shuffled shuffle (o_data o) rs) (o_folds o) = Ok sp.
Proof.
  intros wt o g sp. destruct (np_seed_ok (o_seed o)) eqn:Hs.
  - rewrite orch_iter_seed_ok by exact Hs. unfold py_sample.
    destruct ((0 <=? o_repeats o) && (o_repeats o <=? 1000)); simpl; [|contradiction].
    destruct (sample_draw (seed_rng (o_seed o)) 1000 (o_repeats o)) as [xs g'].
    apply repeat_loop_origin.
  - rewrite orch_iter_seed_bad by exact Hs. simpl. contradiction.
Qed.

(** (C1) Group integrity: in every repeat yielded by the orchestrator, rows
    with equal group key [(county_fip, state_code)] carry the same fold
    number, and for every fold no group key is found both in the train
    subset and in the test subset. *)
Theorem group_integrity : forall wt o g sp,
  In sp (fst (fst (orch_iter seed_rng sample_draw shuffle wt o g))) ->
  (forall m1 m2, In m1 (frows (sp_data sp)) -> In m2 (frows (sp_data sp)) ->
     key_eqb (gkey m1) (gkey m2) = true -> m1 "__fold" = m2 "__fold") /\
  (forall f m1 m2,
     In m1 (frows (fst (fold_split sp f))) -> In m2 (frows (snd (fold_split sp f))) ->
     key_eqb (gkey m1) (gkey m2) = false).
Proof.
  intros wt o g sp Hsp.
  destruct (orch_iter_origin wt o g sp Hsp) as [rs Hrs].
  exact (splitter_group_integrity _ _ _ Hrs).
Qed.

(** (C3) Determinism: the repeats and their fold contents do not depend on
    the state of the global generators before the iteration.  A seed that
    torch or numpy refuses raises before any repeat; otherwise the repeats
    are built in order from the sub-seeds drawn up front from the generator
    seeded with [S]. *)
Theorem orchestration_deterministic : forall weights batch wt o g1 g2,
  fst (orch_iter seed_rng sample_draw shuffle wt o g1) =
  fst (orch_iter seed_rng sample_draw shuffle wt o g2) /\
  fold_contents seed_rng sample_draw shuffle weights batch wt o g1 =
  fold_contents seed_rng sample_draw shuffle weights batch wt o g2 /\
  fst (orch_iter seed_rng sample_draw shuffle wt o g1) =
  (if wt && negb (torch_seed_ok (o_seed o)) then ([], Some RuntimeError)
   else if negb (np_seed_ok (o_seed o)) then ([], Some ValueError)
   else
     match fst (py_sample sample_draw (seed_rng (o_seed o)) 1000 (o_repeats o)) with
     | Ok seeds => repeat_loop shuffle (o_data o) (o_folds o) seeds
     | Err e => ([], Some e)
     end).
Proof.
  intros weights batch wt o g1 g2.
  unfold fold_contents, orch_iter.
  destruct (wt && negb (torch_seed_ok (o_seed o))); [repeat split; reflexivity|].
  destruct (negb (np_seed_ok (o_seed o))); [repeat split; reflexivity|].
  destruct (py_sample sample_draw (seed_rng (o_seed o)) 1000 (o_repeats o)) as [[seeds|e] gp];
    simpl; repeat split; reflexivity.
Qed.

Lemma repeat_loop_no_value_error : forall d K seeds,
  snd (repeat_loop shuffle d K seeds) <> Some ValueError.
Proof.
  intros d K seeds. induction seeds as [|rs seeds IH]; simpl; [discriminate|].
  destruct (splitter_init (shuffled shuffle d rs) K) eqn:E.
  - destruct (repeat_loop shuffle d K seeds) as [ys e]. exact IH.
  - simpl. apply splitter_init_error in E as [-> | ->]; discriminate.
Qed.

(** (C8, as the code does it) A seed numpy refuses makes the iteration
    raise before the sub-seeds are drawn ([RuntimeError] in torch_data.py
    when torch refuses it too, [ValueError] otherwise).  With a seed numpy
    accepts, the sub-seeds are [random.sample(range(1000), R)]: for [R < 0]
    or [R > 1000] the iteration raises [ValueError] before yielding any
    repeat; for [0 <= R <= 1000] it draws [R] sub-seeds, builds the repeats
    from them and never raises [ValueError]. *)
Theorem subseed_pool_limit : forall wt o g,
  (np_seed_ok (o_seed o) = false ->
     fst (orch_iter seed_rng sample_draw shuffle wt o g) =
       ([], Some (if wt && negb (torch_seed_ok (o_seed o)) then RuntimeError
                  else ValueError))) /\
  (np_seed_ok (o_seed o) = true ->
   ((o_repeats o < 0 \/ 1000 < o_repeats o) ->
      fst (orch_iter seed_rng sample_draw shuffle wt o g) = ([], Some ValueError)) /\
   (0 <= o_repeats o <= 1000 ->
      exists seeds, List.length seeds = Z.to_nat (o_repeats o) /\
        fst (orch_iter seed_rng sample_draw shuffle wt o g) =
          repeat_loop shuffle (o_data o) (o_folds o) seeds /\
        snd (fst (orch_iter seed_rng sample_draw shuffle wt o g)) <> Some ValueError)).
Proof.
  intros wt o g. split.
  - intros Hs. rewrite orch_iter_seed_bad by exact Hs. reflexivity.
  - intros Hs. rewrite orch_iter_seed_ok by exact Hs. unfold py_sample. split.
    + intros HR. replace ((0 <=? o_repeats o) && (o_repeats o <=? 1000)) with false
        by (symmetry; apply andb_false_iff; lia). reflexivity.
    + intros HR. replace ((0 <=? o_repeats o) && (o_repeats o <=? 1000)) with true
        by (symmetry; apply andb_true_iff; lia).
      pose proof (sample_draw_length (seed_rng (o_seed o)) 1000 (o_repeats o) HR) as Hl.
      destruct (sample_draw (seed_rng (o_seed o)) 1000 (o_repeats o)) as [xs g'].
      exists xs. simpl in *. split; [exact Hl|]. split; [reflexivity|].
      apply repeat_loop_no_value_error.
Qed.

(** (C9, as the code does it) Construction validates nothing: it stores the
    table, [K], [R] and the seed.  With a seed numpy accepts: with [R = 0]
    the iteration yields no repeat and raises nothing; a table without
    [county_fip] or [state_code] raises [KeyError] when the first repeat is
    built, during iteration.  With [K <= 0] a repeat yields no fold; with
    [K = 1] the train subset of the only fold is empty. *)
Theorem construction_never_validates :
  (forall csv K R S, orch_init csv K R S = Ok (mkOrch csv K R S)) /\
  (forall wt d K S g, np_seed_ok S = true ->
     fst (orch_iter seed_rng sample_draw shuffle wt (mkOrch d K 0 S) g) = ([], None)) /\
  (forall wt d K R S g, np_seed_ok S = true ->
     1 <= R <= 1000 -> has_cols d ["county_fip"; "state_code"] = false ->
     fst (orch_iter seed_rng sample_draw shuffle wt (mkOrch d K R S) g) = ([], Some KeyError)) /\
  (forall weights batch sp, sp_folds sp <= 0 -> splitter_iter weights batch sp = ([], None)) /\
  (forall sp, sp_folds sp = 1 -> frows (fst (fold_split sp 1)) = []).
Proof.
  split; [reflexivity|]. split; [|split; [|split]].
  - intros wt d K S g Hs. rewrite orch_iter_seed_ok by exact Hs. unfold py_sample. simpl.
    pose proof (sample_draw_length (seed_rng S) 1000 0 ltac:(lia)) as Hl.
    destruct (sample_draw (seed_rng S) 1000 0) as [xs g'].
    simpl in Hl. destruct xs; [reflexivity | discriminate].
  - intros wt d K R S g Hs HR Hc. rewrite orch_iter_seed_ok by exact Hs.
    unfold py_sample. simpl.
    replace ((0 <=? R) && (R <=? 1000)) with true by (symmetry; apply andb_true_iff; lia).
    pose proof (sample_draw_length (seed_rng S) 1000 R ltac:(lia)) as Hl.
    destruct (sample_draw (seed_rng S) 1000 R) as [xs g'].
    simpl in Hl. destruct xs as [|rs xs]; [simpl in Hl; lia|].
    simpl. unfold splitter_init. unfold shuffled, has_cols in *. simpl in *.
    unfold has_col in *. simpl in *. rewrite Hc. reflexivity.
  - exact splitter_iter_no_folds.
  - intros sp H. unfold fold_split. rewrite H.
    rewrite train_folds_one. reflexivity.
Qed.

(** (C10, as the code does it) Iterating the orchestrator sets the global
    generators, whatever their state before.  With a seed numpy accepts:
    numpy's (and, in torch_data.py, torch's) to [seed(S)], Python's to
    [seed(S)] advanced by the draw of the sub-seeds.  With a seed numpy
    refuses, numpy's and Python's are left as they were, and torch_data.py
    has set torch's to [seed(S)] when torch accepts [S].
    [_ABTDataset.__init__] imputes in place on the frame it is given, while
    a view built by [_make_dataset] leaves every frame that existed before
    unchanged (it imputes on a copy). *)
Theorem global_state_and_view_effects :
  (forall wt o g, np_seed_ok (o_seed o) = true ->
     snd (orch_iter seed_rng sample_draw shuffle wt o g) =
     @mkG rng (snd (py_sample sample_draw (seed_rng (o_seed o)) 1000 (o_repeats o)))
         (seed_rng (o_seed o))
         (if wt then seed_rng (o_seed o) else torch_state rng g)) /\
  (forall wt o g, np_seed_ok (o_seed o) = false ->
     snd (orch_iter seed_rng sample_draw shuffle wt o g) =
     if wt && torch_seed_ok (o_seed o)
     then mkG (py_state rng g) (np_state rng g) (seed_rng (o_seed o)) else g) /\
  (forall weights st l fs l', (l' < List.length st)%nat ->
     nth_error (snd (make_dataset_st weights st l fs)) l' = nth_error st l') /\
  (forall weights st l d,
     nth_error st l = Some d -> has_col d "infection_momentum" = true ->
     nth_error (snd (abt_init_st weights st l)) l = Some (abt_impute d)).
Proof.
  split; [|split; [|split; [exact make_dataset_st_frame | exact abt_init_st_frame]]].
  - intros wt o g Hs. rewrite orch_iter_seed_ok by exact Hs.
    destruct (py_sample sample_draw (seed_rng (o_seed o)) 1000 (o_repeats o)) as [[xs|e] g'];
      reflexivity.
  - intros wt o g Hs. rewrite orch_iter_seed_bad by exact Hs. reflexivity.
Qed.

End OrchestratorFacts.

(** (C4) Balance of the fold assigner: each distinct group of stratum [q]
    gets the fold [i mod K + 1], [i] being its index in the stratum in
    encounter order, every fold number given to a group with a stratum is
    in [1, K], and fold [f] receives the floor or the ceiling of [N / K] of
    the [N] groups of the stratum. *)
Theorem round_robin_balance : forall K rs q,
  1 <= K ->
  let lk := fold_lookup K rs in
  let N := List.length (filter (fun e => cell_eqb (snd (fst e)) (Some q)) lk) in
  map snd (filter (fun e => cell_eqb (snd (fst e)) (Some q)) lk) =
    map (fun i => Some (inject_Z (Z.of_nat i mod K + 1))) (seq 0 N) /\
  (forall e, In e lk -> snd (fst e) <> None ->
     exists z, snd e = Some (inject_Z z) /\ 1 <= z <= K) /\
  (forall f, 1 <= f <= K ->
     let c := List.length (filter (fun e => cell_eqb (snd (fst e)) (Some q) &&
                                        cell_eqb (snd e) (Some (inject_Z f))) lk) in
     Z.of_nat c = Z.of_nat N / K \/ Z.of_nat c = (Z.of_nat N + K - 1) / K).
Proof.
  intros K rs q HK lk N. split; [|split].
  - unfold N, lk, fold_lookup.
    rewrite <- (length_map snd), assign_folds_stratum, length_map, length_seq.
    apply map_ext. intros i. unfold np_mod.
    destruct (K =? 0) eqn:E; [lia | reflexivity].
  - intros e He Hs. eapply assign_folds_range; eauto.
  - intros f Hf. exact (fold_lookup_balance K rs q f HK Hf).
Qed.

(** ** Weights, row access and imputation of [_ABTDataset] *)

Lemma Q2R_int : forall n : Z, Q2R (n # 1) = IZR n.
Proof. intros n. unfold Q2R. simpl. rewrite Rinv_1. ring. Qed.

Lemma sqrt_opt_square : forall a : R, (0 <= a)%R -> sqrt_opt (Some (a * a)%R) = Some a.
Proof.
  intros a Ha. unfold sqrt_opt. destruct (Rle_dec 0 (a * a)) as [_|Hn].
  - now rewrite sqrt_square.
  - exfalso. apply Hn. apply Rle_0_sqr.
Qed.

Lemma div_opt_some : forall x y : R, y <> 0%R -> div_opt (Some x) (Some y) = Some (x / y)%R.
Proof.
  intros x y Hy. unfold div_opt. destruct (Req_dec_T y 0); [contradiction | reflexivity].
Qed.

Lemma sum_skipna_div : forall (f : Q -> R) (T : R) (l : list Q),
  sum_skipna (map (fun x => Some (f x / T)%R) l) =
  (sum_skipna (map (fun x => Some (f x)) l) / T)%R.
Proof.
  intros f T l. induction l as [|x l IH]; simpl; [unfold Rdiv; ring|].
  rewrite IH. unfold Rdiv. ring.
Qed.

(** The weights of the sklearn_cv_data.py view: [sqrt(p_i) / sum_j sqrt(p_j)],
    non-negative, summing to 1 when the populations are present and
    non-negative and not all zero. *)
Lemma weights_sk_normalised : forall pops : list Q,
  (forall q, In q pops -> (0 <= Q2R q)%R) ->
  let T := sum_skipna (map (fun q => Some (sqrt (Q2R q))) pops) in
  T <> 0%R ->
  weights_sk (map Some pops) = map (fun q => Some (sqrt (Q2R q) / T)%R) pops /\
  (forall q, In q pops -> (0 <= sqrt (Q2R q) / T)%R) /\
  sum_skipna (weights_sk (map Some pops)) = 1%R.
Proof.
  intros pops Hpos T HT.
  assert (Hs : map (fun c => sqrt_opt (cell_R c)) (map Some pops) =
               map (fun q => Some (sqrt (Q2R q))) pops).
  { rewrite map_map. apply map_ext_in. intros q Hq. unfold sqrt_opt, cell_R. simpl.
    destruct (Rle_dec 0 (Q2R q)) as [_|Hn]; [reflexivity|].
    exfalso. apply Hn, Hpos, Hq. }
  assert (Hw : weights_sk (map Some pops) = map (fun q => Some (sqrt (Q2R q) / T)%R) pops).
  { unfold weights_sk. rewrite Hs. fold T. rewrite map_map.
    apply map_ext. intros q. now apply div_opt_some. }
  split; [exact Hw|split].
  - intros q Hq. assert (HT0 : (0 <= T)%R).
    { unfold T. clear -Hpos. induction pops as [|x l IH]; simpl; [lra|].
      pose proof (sqrt_pos (Q2R x)). assert (0 <= sum_skipna (map (fun q => Some (sqrt (Q2R q))) l))%R
        by (apply IH; intros; apply Hpos; now right). lra. }
    apply Rmult_le_pos; [apply sqrt_pos|].
    apply Rlt_le, Rinv_0_lt_compat. lra.
  - rewrite Hw, (sum_skipna_div (fun q => sqrt (Q2R q))). fold T.
    unfold Rdiv. now apply Rinv_r.
Qed.

(** (C5) torch_data.py divides by the square root of the summed population
    instead of the sum of the square roots: with populations 9 and 16 its
    weights are 3/5 and 4/5, which sum to 7/5, while the sklearn_cv_data.py
    view gives 3/7 and 4/7. *)
Theorem weights_torch_not_normalised :
  weights_torch [Some 9%Q; Some 16%Q] = [Some (3 / 5)%R; Some (4 / 5)%R] /\
  (3 / 5 + 4 / 5 <> 1)%R /\
  weights_sk [Some 9%Q; Some 16%Q] = [Some (3 / 7)%R; Some (4 / 7)%R].
Proof.
  assert (H9 : Q2R (9 # 1) = (3 * 3)%R) by (rewrite Q2R_int; lra).
  assert (H16 : Q2R (16 # 1) = (4 * 4)%R) by (rewrite Q2R_int; lra).
  split; [|split].
  - cbn [weights_torch map sum_nan cell_R option_map]. rewrite H9, H16.
    replace (3 * 3 + (4 * 4 + 0))%R with (5 * 5)%R by lra.
    rewrite !sqrt_opt_square by lra.
    rewrite !div_opt_some by lra. reflexivity.
  - lra.
  - unfold weights_sk. cbn [map cell_R option_map]. rewrite H9, H16.
    rewrite !sqrt_opt_square by lra. cbn [map sum_skipna].
    replace (3 + (4 + 0))%R with 7%R by lra.
    rewrite !div_opt_some by lra. reflexivity.
Qed.

(** (C6) On the three-row [demo_frame], [ds[0]] of the sklearn_cv_data.py
    view returns the whole feature, target and weight matrices (three rows
    each), while the torch_data.py view returns the triple of row 0; both
    report three rows. *)
Theorem getitem_whole_matrices :
  match abt_init_sk demo_frame, abt_init_torch demo_frame with
  | Ok v, Ok v' =>
      abt_len v = 3%nat /\ abt_len v' = 3%nat /\
      getitem_sk v 0 = (xmat v, ymat v, zmat v) /\
      List.length (xmat v) = 3%nat /\ List.length (ymat v) = 3%nat /\
      List.length (zmat v) = 3%nat /\
      getitem_torch v' 0 =
        Ok (map (impute_momentum (mk_row (Some 1%Q) (Some 1%Q) None (Some 9%Q))) feature_cols,
            map (mk_row (Some 1%Q) (Some 1%Q) None (Some 9%Q)) target_cols,
            nth 0 (zmat v') None)
  | _, _ => False
  end.
Proof.
  cbn [abt_init_sk abt_init_torch abt_init].
  cbn [has_col demo_frame mk_frame fcols abt_columns].
  simpl. repeat split; reflexivity.
Qed.

(** (C7) Imputation: a view built from a frame has, in its feature matrix,
    the value 1 in the [infection_momentum] column of every row where it is
    missing, and every other feature, both targets and the population the
    weights are computed from are the source values, missing values
    included. *)
Theorem momentum_imputation : forall weights d v,
  abt_init weights d = Ok v ->
  vdata v = abt_impute d /\
  xmat v = map (fun r => map (fun c =>
             if String.eqb c "infection_momentum" then
               match r c with None => Some 1%Q | x => x end
             else r c) feature_cols) (frows d) /\
  ymat v = map (fun r => map r target_cols) (frows d) /\
  zmat v = weights (map (fun r => r "acs_pop_total") (frows d)).
Proof.
  intros weights d v H. unfold abt_init, abt_matrices in H.
  destruct (negb (has_col d "infection_momentum")); [discriminate|].
  destruct (negb (has_col (abt_impute d) "acs_pop_total")); [discriminate|].
  destruct (negb (has_cols (abt_impute d) target_cols)); [discriminate|].
  destruct (negb (has_cols (abt_impute d) feature_cols)); [discriminate|].
  inversion H; subst; clear H. simpl.
  repeat split; rewrite map_map; reflexivity.
Qed.

(** ** The stand-in generators meet the generators' hypotheses *)

Lemma demo_shuffle_perm : forall rs l, Permutation (demo_shuffle rs l) l.
Proof. intros rs l. apply Permutation_refl. Qed.

Lemma demo_sample_draw_length : forall g n k,
  0 <= k <= n -> List.length (fst (demo_sample_draw g n k)) = Z.to_nat k.
Proof.
  intros g n k _. unfold demo_sample_draw, py_range. simpl.
  rewrite length_map, length_seq. f_equal. lia.
Qed.

(** ** Counterexamples *)

(** (C8) [R = -1] is below the pool size, yet the iteration raises
    [ValueError] before yielding a repeat. *)
Lemma subseed_negative_repeats :
  -1 <= 1000 /\
  fst (orch_iter demo_seed demo_sample_draw demo_shuffle false
         (mkOrch demo_frame 2 (-1) 0) (mkG 0 0 0)) = ([], Some ValueError).
Proof. split; [lia | reflexivity]. Qed.

(** (C9) [K = 1], [R = 0] and a table without the key columns are all
    accepted at construction; [R = 0] then yields nothing without error, the
    missing columns raise [KeyError] only during iteration, and with
    [K = 1] the only fold has an empty train subset. *)
Lemma construction_accepts_bad_config :
  orch_init (mkFrame ["x"] []) 1 0 0 = Ok (mkOrch (mkFrame ["x"] []) 1 0 0) /\
  fst (orch_iter demo_seed demo_sample_draw demo_shuffle false
         (mkOrch demo_frame 2 0 0) (mkG 0 0 0)) = ([], None) /\
  fst (orch_iter demo_seed demo_sample_draw demo_shuffle false
         (mkOrch (mkFrame ["x"] []) 2 1 0) (mkG 0 0 0)) = ([], Some KeyError) /\
  map (fun sp => List.length (frows (fst (fold_split sp 1))))
      (fst (fst (orch_iter demo_seed demo_sample_draw demo_shuffle false
                   (mkOrch demo_frame 1 1 0) (mkG 0 0 0)))) = [0%nat].
Proof. vm_compute. repeat split. Qed.

(** (C10) Building a view rewrites the frame it is given (the missing
    momentum of its first row becomes 1), and iterating the torch
    orchestrator changes all three global generators. *)
Lemma view_mutates_given_frame :
  snd (abt_init_st weights_sk [demo_frame] 0) <> [demo_frame] /\
  snd (orch_iter demo_seed demo_sample_draw demo_shuffle true demo_orch (mkG 7 7 7))
    = mkG 1 0 0.
Proof.
  split; [|reflexivity].
  intros H.
  apply (f_equal (fun st => match st with
                            | d :: _ => match frows d with
                                        | r :: _ => r "infection_momentum"
                                        | [] => None
                                        end
                            | [] => None
                            end)) in H.
  vm_compute in H. discriminate.
Qed.

(** ** Witnesses *)

Lemma group_integrity_witness :
  In demo_repeat (fst (fst (orch_iter demo_seed demo_sample_draw demo_shuffle false
                              demo_orch (mkG 0 0 0)))) /\
  (forall m1 m2, In m1 (frows (sp_data demo_repeat)) -> In m2 (frows (sp_data demo_repeat)) ->
     key_eqb (gkey m1) (gkey m2) = true -> m1 "__fold" = m2 "__fold") /\
  (forall f m1 m2,
     In m1 (frows (fst (fold_split demo_repeat f))) ->
     In m2 (frows (snd (fold_split demo_repeat f))) ->
     key_eqb (gkey m1) (gkey m2) = false).
Proof.
  assert (H : In demo_repeat (fst (fst (orch_iter demo_seed demo_sample_draw demo_shuffle
                                          false demo_orch (mkG 0 0 0)))))
    by (left; reflexivity).
  split; [exact H|].
  exact (group_integrity Z demo_seed demo_sample_draw demo_shuffle false demo_orch
           (mkG 0 0 0) demo_repeat H).
Defined.

Lemma subseed_pool_limit_witness :
  fst (orch_iter demo_seed demo_sample_draw demo_shuffle false
         (mkOrch demo_frame 2 1 (-1)) (mkG 0 0 0)) = ([], Some ValueError) /\
  fst (orch_iter demo_seed demo_sample_draw demo_shuffle false
         (mkOrch demo_frame 2 1001 0) (mkG 0 0 0)) = ([], Some ValueError) /\
  exists seeds, List.length seeds = 3%nat /\
    fst (orch_iter demo_seed demo_sample_draw demo_shuffle false
           (mkOrch demo_frame 2 3 0) (mkG 0 0 0)) = repeat_loop demo_shuffle demo_frame 2 seeds.
Proof.
  split; [|split].
  - apply (proj1 (subseed_pool_limit Z demo_seed demo_sample_draw demo_shuffle
                    demo_sample_draw_length false (mkOrch demo_frame 2 1 (-1)) (mkG 0 0 0))).
    reflexivity.
  - apply (proj2 (subseed_pool_limit Z demo_seed demo_sample_draw demo_shuffle
                    demo_sample_draw_length false (mkOrch demo_frame 2 1001 0) (mkG 0 0 0))
             ltac:(reflexivity)).
    simpl; lia.
  - destruct (proj2 (proj2 (subseed_pool_limit Z demo_seed demo_sample_draw demo_shuffle
                       demo_sample_draw_length false (mkOrch demo_frame 2 3 0) (mkG 0 0 0))
                       ltac:(reflexivity)))
      as [seeds [Hl [He _]]]; [simpl; lia|].
    exists seeds. split; [exact Hl | exact He].
Defined.

Lemma construction_never_validates_witness :
  orch_init demo_frame 1 0 0 = Ok (mkOrch demo_frame 1 0 0) /\
  fst (orch_iter demo_seed demo_sample_draw demo_shuffle true
         (mkOrch demo_frame 2 0 5) (mkG 0 0 0)) = ([], None) /\
  fst (orch_iter demo_seed demo_sample_draw demo_shuffle false
         (mkOrch (mkFrame ["x"] []) 2 4 0) (mkG 0 0 0)) = ([], Some KeyError) /\
  splitter_iter weights_sk None (mkSplitter 0 demo_frame) = ([], None) /\
  frows (fst (fold_split (mkSplitter 1 demo_frame) 1)) = [].
Proof.
  destruct (construction_never_validates Z demo_seed demo_sample_draw demo_shuffle
              demo_sample_draw_length) as [H1 [H2 [H3 [H4 H5]]]].
  split; [apply H1|]. split; [apply H2; reflexivity|].
  split; [apply H3; [reflexivity | lia | reflexivity]|].
  split; [apply H4; simpl; lia | apply H5; reflexivity].
Defined.

Lemma global_state_and_view_effects_witness :
  snd (orch_iter demo_seed demo_sample_draw demo_shuffle true demo_orch (mkG 7 7 7)) =
    mkG (snd (py_sample demo_sample_draw (demo_seed 0) 1000 1)) (demo_seed 0) (demo_seed 0) /\
  snd (orch_iter demo_seed demo_sample_draw demo_shuffle true
         (mkOrch demo_frame 2 1 (-1)) (mkG 7 7 7)) = mkG 7 7 (-1) /\
  nth_error (snd (make_dataset_st weights_sk [demo_frame] 0 [1])) 0 = Some demo_frame /\
  nth_error (snd (abt_init_st weights_sk [demo_frame] 0)) 0 = Some (abt_impute demo_frame).
Proof.
  destruct (global_state_and_view_effects Z demo_seed demo_sample_draw demo_shuffle)
    as [H1 [H2 [H3 H4]]].
  split; [apply (H1 true demo_orch (mkG 7 7 7)); reflexivity|].
  split; [apply (H2 true (mkOrch demo_frame 2 1 (-1)) (mkG 7 7 7)); reflexivity|].
  split; [apply (H3 weights_sk [demo_frame] 0%nat [1] 0%nat); simpl; lia|].
  apply H4; reflexivity.
Defined.

Lemma round_robin_balance_witness :
  1 <= 2 /\
  let lk := fold_lookup 2 (frows demo_frame) in
  let N := List.length (filter (fun e => cell_eqb (snd (fst e)) (Some 1%Q)) lk) in
  map snd (filter (fun e => cell_eqb (snd (fst e)) (Some 1%Q)) lk) =
    map (fun i => Some (inject_Z (Z.of_nat i mod 2 + 1))) (seq 0 N) /\
  (forall e, In e lk -> snd (fst e) <> None ->
     exists z, snd e = Some (inject_Z z) /\ 1 <= z <= 2) /\
  (forall f, 1 <= f <= 2 ->
     let c := List.length (filter (fun e => cell_eqb (snd (fst e)) (Some 1%Q) &&
                                        cell_eqb (snd e) (Some (inject_Z f))) lk) in
     Z.of_nat c = Z.of_nat N / 2 \/ Z.of_nat c = (Z.of_nat N + 2 - 1) / 2).
Proof.
  split; [lia|].
  apply (round_robin_balance 2 (frows demo_frame) 1%Q). lia.
Defined.

Lemma momentum_imputation_witness :
  exists v, abt_init weights_sk demo_frame = Ok v /\
  vdata v = abt_impute demo_frame /\
  xmat v = map (fun r => map (fun c =>
             if String.eqb c "infection_momentum" then
               match r c with None => Some 1%Q | x => x end
             else r c) feature_cols) (frows demo_frame) /\
  ymat v = map (fun r => map r target_cols) (frows demo_frame) /\
  zmat v = weights_sk (map (fun r => r "acs_pop_total") (frows demo_frame)).
Proof.
  destruct (abt_init weights_sk demo_frame) as [v|e] eqn:E; [|discriminate].
  exists v. split; [reflexivity|].
  exact (momentum_imputation weights_sk demo_frame v E).
Defined.

(** ** Further properties of the splitter, the views and the orchestrator *)

Lemma cell_eqb_none : forall c, cell_eqb c None = true -> c = None.
Proof. intros [q|] H; [discriminate | reflexivity]. Qed.

Lemma assign_folds_none : forall K ks prev e,
  In e (assign_folds K prev ks) -> snd (fst e) = None -> snd e = None.
Proof.
  intros K ks. induction ks as [|k ks IH]; simpl; intros prev e He Hs; [contradiction|].
  destruct He as [<-|He]; [|eapply IH; eauto].
  simpl in *. unfold fold_of. now rewrite Hs.
Qed.

Lemma splitter_init_ok : forall d K,
  has_cols d ["county_fip"; "state_code"] = true ->
  exists sp, splitter_init d K = Ok sp /\
    fcols (sp_data sp) = fcols d ++ ["__fold"].
Proof.
  intros d K H.
  destruct (merge_lookup_unique (frows d) (fold_lookup K (frows d)))
    as [fs [Hm [Hl _]]];
    [apply fold_lookup_distinct | intros; now apply fold_lookup_complete |].
  unfold splitter_init. rewrite H.
  replace (Nat.eqb (List.length (merge_lookup (frows d) (fold_lookup K (frows d))))
                   (List.length (frows d))) with true.
  - eexists. split; reflexivity.
  - symmetry. apply Nat.eqb_eq. rewrite Hm, length_map, length_combine, Hl. lia.
Qed.

Lemma with_fold_other : forall r f c, c <> "__fold" -> with_fold r f c = r c.
Proof.
  intros r f c H. unfold with_fold. destruct (String.eqb_spec c "__fold"); [contradiction | reflexivity].
Qed.

(** The fold a row of the merged frame carries: in [1, K] when its
    [state_code] is present, missing otherwise. *)
Lemma splitter_fold_cases : forall d K sp m,
  splitter_init d K = Ok sp -> In m (frows (sp_data sp)) ->
  (1 <= K -> m "state_code" <> None ->
     exists z, m "__fold" = Some (inject_Z z) /\ 1 <= z <= K) /\
  (m "state_code" = None -> m "__fold" = None).
Proof.
  intros d K sp m H Hm. split.
  - intros HK Hs. eapply splitter_fold_range; eauto.
  - intros Hs.
    destruct (splitter_row_origin d K sp m H Hm) as [r [e [_ [He [Hk ->]]]]].
    rewrite with_fold_fold. eapply assign_folds_none; [exact He|].
    rewrite with_fold_other in Hs by discriminate.
    unfold key_eqb in Hk. apply andb_true_iff in Hk as [_ Hk].
    unfold gkey in Hk. simpl in Hk. rewrite Hs in Hk. now apply cell_eqb_none.
Qed.

Lemma splitter_init_folds : forall d K sp, splitter_init d K = Ok sp -> sp_folds sp = K.
Proof. intros d K sp H. exact (proj1 (splitter_init_rows d K sp H)). Qed.

(** [__init__] of the splitter: without [county_fip] or [state_code] it
    raises [KeyError]; otherwise, on a table without a [__fold] column, its
    [assert] never fails, and the merged frame has the input's columns and
    [__fold], and, in some order, the input's rows, each with the fold of
    the lookup entry of its key. *)
Theorem splitter_init_outcome : forall d K,
  (has_cols d ["county_fip"; "state_code"] = false -> splitter_init d K = Err KeyError) /\
  (has_cols d ["county_fip"; "state_code"] = true -> has_col d "__fold" = false ->
   exists sp, splitter_init d K = Ok sp /\ sp_folds sp = K /\
     fcols (sp_data sp) = fcols d ++ ["__fold"] /\
     exists fs,
       Permutation (frows (sp_data sp))
                   (map (fun p => with_fold (fst p) (snd p)) (combine (frows d) fs)) /\
       List.length fs = List.length (frows d) /\
       forall r f, In (r, f) (combine (frows d) fs) ->
         exists e, In e (fold_lookup K (frows d)) /\
                   key_eqb (fst e) (gkey r) = true /\ f = snd e).
Proof.
  intros d K. split.
  - intros H. unfold splitter_init. now rewrite H.
  - intros H _. destruct (splitter_init_ok d K H) as [sp [Hsp Hc]].
    exists sp. split; [exact Hsp|]. split; [exact (splitter_init_folds d K sp Hsp)|].
    split; [exact Hc|].
    destruct (proj2 (splitter_init_rows d K sp Hsp)) as [fs [Hr [Hl Hf]]].
    exists fs. split; [rewrite Hr; apply Permutation_refl | split; assumption].
Qed.

(** The fold column of a repeat: with [K >= 1], a row with a [state_code]
    has a fold in [1, K]; a row without one has a missing fold. *)
Theorem splitter_fold_values : forall d K sp m,
  splitter_init d K = Ok sp -> In m (frows (sp_data sp)) ->
  (1 <= K -> m "state_code" <> None ->
     exists z, m "__fold" = Some (inject_Z z) /\ 1 <= z <= K) /\
  (m "state_code" = None -> m "__fold" = None).
Proof. exact splitter_fold_cases. Qed.


Lemma has_col_fold_subset : forall d fs c, has_col (fold_subset d fs) c = has_col d c.
Proof. reflexivity. Qed.

Lemma has_cols_fold_subset : forall d fs cs, has_cols (fold_subset d fs) cs = has_cols d cs.
Proof. reflexivity. Qed.

Lemma has_col_impute : forall d c, has_col (abt_impute d) c = has_col d c.
Proof. reflexivity. Qed.

Lemma has_cols_impute : forall d cs, has_cols (abt_impute d) cs = has_cols d cs.
Proof. reflexivity. Qed.

Lemma abt_init_ok : forall w d,
  has_col d "infection_momentum" = true -> has_col d "acs_pop_total" = true ->
  has_cols d target_cols = true -> has_cols d feature_cols = true ->
  abt_init w d =
    Ok (mkView (abt_impute d)
          (w (map (fun r => r "acs_pop_total") (frows (abt_impute d))))
          (map (fun r => map r target_cols) (frows (abt_impute d)))
          (map (fun r => map r feature_cols) (frows (abt_impute d)))).
Proof.
  intros w d H1 H2 H3 H4. unfold abt_init, abt_matrices.
  rewrite H1, has_col_impute, H2, has_cols_impute, H3, has_cols_impute, H4.
  reflexivity.
Qed.

Lemma splitter_loop_ok : forall w b sp l,
  loader_ok b = true ->
  (forall fs, exists v, make_dataset w sp fs = Ok v) ->
  snd (splitter_loop w b sp l) = None /\
  Forall2 (fun f p => make_dataset w sp (train_folds (sp_folds sp) f) = Ok (fst p) /\
                      make_dataset w sp [f] = Ok (snd p))
          l (fst (splitter_loop w b sp l)).
Proof.
  intros w b sp l Hb Hok. induction l as [|f l IH]; simpl; [split; constructor|].
  destruct (Hok (train_folds (sp_folds sp) f)) as [tr Htr].
  destruct (Hok [f]) as [te Hte]. rewrite Htr, Hte, Hb.
  destruct (splitter_loop w b sp l) as [ys e]. simpl in *.
  destruct IH as [IHe IHf]. split; [exact IHe|]. constructor; [split; assumption | exact IHf].
Qed.

Lemma make_dataset_ok : forall w sp fs,
  has_col (sp_data sp) "__fold" = true ->
  has_col (sp_data sp) "infection_momentum" = true ->
  has_col (sp_data sp) "acs_pop_total" = true ->
  has_cols (sp_data sp) target_cols = true ->
  has_cols (sp_data sp) feature_cols = true ->
  make_dataset w sp fs = abt_init w (fold_subset (sp_data sp) fs) /\
  exists v, abt_init w (fold_subset (sp_data sp) fs) = Ok v.
Proof.
  intros w sp fs H0 H1 H2 H3 H4. unfold make_dataset. rewrite H0.
  split; [reflexivity|]. eexists. apply abt_init_ok;
    rewrite ?has_col_fold_subset, ?has_cols_fold_subset; assumption.
Qed.

(** Iterating a splitter whose frame has the [__fold] column and every
    column a view reads, with a batch size the [DataLoader] accepts (any in
    sklearn_cv_data.py, [b >= 1] in torch_data.py): no exception, and the
    yielded pairs are, in order, the train and test views of the folds
    [1..K] (none when [K <= 0]). *)
Theorem splitter_iter_views : forall w b sp,
  loader_ok b = true ->
  has_col (sp_data sp) "__fold" = true ->
  has_col (sp_data sp) "infection_momentum" = true ->
  has_col (sp_data sp) "acs_pop_total" = true ->
  has_cols (sp_data sp) target_cols = true ->
  has_cols (sp_data sp) feature_cols = true ->
  snd (splitter_iter w b sp) = None /\
  Forall2 (fun f p => abt_init w (fst (fold_split sp f)) = Ok (fst p) /\
                      abt_init w (snd (fold_split sp f)) = Ok (snd p))
          (py_range 1 (1 + sp_folds sp)) (fst (splitter_iter w b sp)).
Proof.
  intros w b sp Hb H0 H1 H2 H3 H4.
  destruct (splitter_loop_ok w b sp (py_range 1 (1 + sp_folds sp)) Hb) as [He Hf].
  { intros fs. destruct (make_dataset_ok w sp fs H0 H1 H2 H3 H4) as [-> Hv]. exact Hv. }
  split; [exact He|]. unfold splitter_iter.
  eapply Forall2_impl; [|exact Hf]. intros f p [Htr Hte].
  rewrite (proj1 (make_dataset_ok w sp _ H0 H1 H2 H3 H4)) in Htr.
  rewrite (proj1 (make_dataset_ok w sp _ H0 H1 H2 H3 H4)) in Hte.
  split; assumption.
Qed.

Lemma py_range_1_succ : forall K, 1 <= K ->
  exists tl, py_range 1 (1 + K) = 1 :: tl.
Proof.
  intros K HK. unfold py_range. destruct (Z.to_nat (1 + K - 1)) eqn:E; [lia|].
  simpl. eexists. reflexivity.
Qed.

(** A splitter with [K >= 1] yields nothing when building or wrapping the
    first fold's views fails: [KeyError] when its frame has no [__fold]
    column; then [AttributeError] without [infection_momentum]; then
    [KeyError] without [acs_pop_total], a target or a feature; and, when
    both views are built, [ValueError] from the [DataLoader] of torch_data.py
    for a batch size [b <= 0]. *)
Theorem splitter_iter_missing_column : forall w b sp,
  1 <= sp_folds sp ->
  (has_col (sp_data sp) "__fold" = false -> splitter_iter w b sp = ([], Some KeyError)) /\
  (has_col (sp_data sp) "__fold" = true ->
   has_col (sp_data sp) "infection_momentum" = false ->
     splitter_iter w b sp = ([], Some AttributeError)) /\
  (has_col (sp_data sp) "__fold" = true ->
   has_col (sp_data sp) "infection_momentum" = true ->
   has_col (sp_data sp) "acs_pop_total" = false \/
   has_cols (sp_data sp) target_cols = false \/
   has_cols (sp_data sp) feature_cols = false ->
     splitter_iter w b sp = ([], Some KeyError)) /\
  (loader_ok b = false ->
   has_col (sp_data sp) "__fold" = true ->
   has_col (sp_data sp) "infection_momentum" = true ->
   has_col (sp_data sp) "acs_pop_total" = true ->
   has_cols (sp_data sp) target_cols = true ->
   has_cols (sp_data sp) feature_cols = true ->
     splitter_iter w b sp = ([], Some ValueError)).
Proof.
  intros w b sp HK. unfold splitter_iter.
  destruct (py_range_1_succ (sp_folds sp) HK) as [tl ->]. cbn [splitter_loop].
  split; [|split; [|split]].
  - intros Hf. unfold make_dataset. now rewrite Hf.
  - intros Hf H. unfold make_dataset, abt_init. rewrite Hf.
    rewrite ?has_col_fold_subset. now rewrite H.
  - intros Hf H Hk. unfold make_dataset, abt_init, abt_matrices. rewrite Hf.
    rewrite ?has_col_fold_subset, ?has_col_impute, ?has_cols_impute,
      ?has_col_fold_subset, ?has_cols_fold_subset.
    rewrite H.
    destruct (has_col (sp_data sp) "acs_pop_total") eqn:E1,
      (has_cols (sp_data sp) target_cols) eqn:E2,
      (has_cols (sp_data sp) feature_cols) eqn:E3;
      try reflexivity; exfalso; intuition congruence.
  - intros Hb H0 H1 H2 H3 H4.
    rewrite (proj1 (make_dataset_ok w sp _ H0 H1 H2 H3 H4)),
      (proj1 (make_dataset_ok w sp [1] H0 H1 H2 H3 H4)).
    rewrite !abt_init_ok by (rewrite ?has_col_fold_subset, ?has_cols_fold_subset; assumption).
    rewrite Hb. reflexivity.
Qed.

Lemma weights_sk_length : forall l, List.length (weights_sk l) = List.length l.
Proof. intros l. unfold weights_sk. now rewrite !length_map. Qed.

Lemma weights_torch_length : forall l, List.length (weights_torch l) = List.length l.
Proof. intros l. unfold weights_torch. now rewrite length_map. Qed.

Lemma abt_init_inv : forall w d v, abt_init w d = Ok v ->
  v = mkView (abt_impute d)
        (w (map (fun r => r "acs_pop_total") (frows (abt_impute d))))
        (map (fun r => map r target_cols) (frows (abt_impute d)))
        (map (fun r => map r feature_cols) (frows (abt_impute d))).
Proof.
  intros w d v H. unfold abt_init, abt_matrices in H.
  destruct (negb (has_col d "infection_momentum")); [discriminate|].
  destruct (negb (has_col (abt_impute d) "acs_pop_total")); [discriminate|].
  destruct (negb (has_cols (abt_impute d) target_cols)); [discriminate|].
  destruct (negb (has_cols (abt_impute d) feature_cols)); [discriminate|].
  now inversion H.
Qed.

Lemma pops_impute : forall rs,
  map (fun r => r "acs_pop_total") (map impute_momentum rs) =
  map (fun r => r "acs_pop_total") rs.
Proof. intros rs. rewrite map_map. apply map_ext. reflexivity. Qed.

(** The shape of a view ([__len__], [__width__]): as many feature rows,
    target rows and weights as the frame has rows; every feature row has 17
    entries, the 15th being the imputed [infection_momentum], never
    missing; every target row has 2 entries. *)
Theorem view_shape : forall w d v,
  (w = weights_sk \/ w = weights_torch) -> abt_init w d = Ok v ->
  abt_len v = List.length (frows d) /\
  List.length (xmat v) = abt_len v /\ List.length (ymat v) = abt_len v /\
  List.length (zmat v) = abt_len v /\
  Forall (fun x => List.length x = 17%nat /\ nth 14 x None <> None) (xmat v) /\
  Forall (fun y => List.length y = 2%nat) (ymat v).
Proof.
  intros w d v Hw H. apply abt_init_inv in H. subst v.
  unfold abt_len. simpl. rewrite !length_map.
  split; [reflexivity|]. split; [reflexivity|]. split; [reflexivity|]. split.
  - destruct Hw as [->| ->];
      [rewrite weights_sk_length | rewrite weights_torch_length]; now rewrite !length_map.
  - split; apply Forall_forall; intros x Hx; apply in_map_iff in Hx as [m [<- Hm]];
      apply in_map_iff in Hm as [r [<- _]]; [split|]; try reflexivity.
    simpl. unfold impute_momentum. simpl. destruct (r "infection_momentum"); discriminate.
Qed.

Lemma py_index_out : forall {A} (l : list A) i,
  (i < - Z.of_nat (List.length l) \/ Z.of_nat (List.length l) <= i) ->
  py_index l i = Err IndexError.
Proof.
  intros A l i H. unfold py_index.
  replace ((- Z.of_nat (List.length l) <=? i) && (i <? Z.of_nat (List.length l))) with false
    by (symmetry; apply andb_false_iff; destruct H; [left | right]; lia).
  reflexivity.
Qed.

Lemma py_index_nonneg : forall {A} (l : list A) i x,
  0 <= i -> nth_error l (Z.to_nat i) = Some x -> py_index l i = Ok x.
Proof.
  intros A l i x Hi Hx. assert (Hlt : (Z.to_nat i < List.length l)%nat).
  { apply nth_error_Some. congruence. }
  unfold py_index.
  replace ((- Z.of_nat (List.length l) <=? i) && (i <? Z.of_nat (List.length l))) with true
    by (symmetry; apply andb_true_iff; lia).
  replace (i <? 0) with false by (symmetry; apply Z.ltb_ge; lia).
  now rewrite Hx.
Qed.

Lemma py_index_neg : forall {A} (l : list A) i,
  - Z.of_nat (List.length l) <= i < 0 ->
  py_index l i = py_index l (Z.of_nat (List.length l) + i).
Proof.
  intros A l i H. unfold py_index.
  replace ((- Z.of_nat (List.length l) <=? i) && (i <? Z.of_nat (List.length l))) with true
    by (symmetry; apply andb_true_iff; lia).
  replace ((- Z.of_nat (List.length l) <=? Z.of_nat (List.length l) + i) &&
           (Z.of_nat (List.length l) + i <? Z.of_nat (List.length l))) with true
    by (symmetry; apply andb_true_iff; lia).
  replace (i <? 0) with true by (symmetry; apply Z.ltb_lt; lia).
  replace (Z.of_nat (List.length l) + i <? 0) with false by (symmetry; apply Z.ltb_ge; lia).
  reflexivity.
Qed.

(** torch_data.py [__getitem__] on a view of [n] rows: an index outside
    [[-n, n)] raises [IndexError]; an index [i] in [[0, n)] gives the
    imputed features, the targets and the weight of row [i] of the frame;
    a negative index [i] counts from the end, as [n + i]. *)
Theorem getitem_torch_bounds : forall d v, abt_init_torch d = Ok v ->
  let n := Z.of_nat (abt_len v) in
  (forall i, (i < - n \/ n <= i) -> getitem_torch v i = Err IndexError) /\
  (forall i r, 0 <= i -> nth_error (frows d) (Z.to_nat i) = Some r ->
     getitem_torch v i =
       Ok (map (impute_momentum r) feature_cols, map r target_cols,
           div_opt (sqrt_opt (cell_R (r "acs_pop_total")))
                   (sqrt_opt (sum_nan (map (fun r' => cell_R (r' "acs_pop_total"))
                                           (frows d)))))) /\
  (forall i, - n <= i < 0 -> getitem_torch v i = getitem_torch v (n + i)).
Proof.
  intros d v H n.
  destruct (view_shape weights_torch d v (or_intror eq_refl) H)
    as [Hn [Hx [Hy [Hz _]]]].
  apply abt_init_inv in H. subst v. unfold n in *. clear n.
  set (v := mkView _ _ _ _) in *.
  split; [|split].
  - intros i Hi. unfold getitem_torch.
    rewrite !py_index_out by (rewrite ?Hx, ?Hy, ?Hz; exact Hi). reflexivity.
  - intros i r Hi Hr. unfold getitem_torch.
    rewrite (py_index_nonneg (xmat v) i (map (impute_momentum r) feature_cols)),
      (py_index_nonneg (ymat v) i (map r target_cols)),
      (py_index_nonneg (zmat v) i (div_opt (sqrt_opt (cell_R (r "acs_pop_total")))
         (sqrt_opt (sum_nan (map (fun r' => cell_R (r' "acs_pop_total")) (frows d))))));
      try exact Hi; try reflexivity; simpl.
    + unfold weights_torch. rewrite pops_impute, !nth_error_map.
      change (nth_error (A := string -> cell) (frows d) (Z.to_nat i) = Some r) in Hr.
      rewrite Hr. simpl. rewrite map_map. reflexivity.
    + rewrite !nth_error_map, Hr. reflexivity.
    + rewrite !nth_error_map, Hr. reflexivity.
  - intros i Hi. unfold getitem_torch.
    rewrite (py_index_neg (xmat v)), (py_index_neg (ymat v)), (py_index_neg (zmat v))
      by (rewrite ?Hx, ?Hy, ?Hz; exact Hi).
    rewrite Hx, Hy, Hz. reflexivity.
Qed.

Lemma abt_len_init : forall w d v, abt_init w d = Ok v ->
  abt_len v = List.length (frows d).
Proof.
  intros w d v H. apply abt_init_inv in H. subst v. unfold abt_len. simpl.
  now rewrite length_map.
Qed.

(** Row [i] of a torch view, with the weight of that row. *)
Lemma getitem_torch_row : forall d v i r,
  abt_init_torch d = Ok v -> 0 <= i -> nth_error (frows d) (Z.to_nat i) = Some r ->
  exists wi, nth_error (zmat v) (Z.to_nat i) = Some wi /\
    getitem_torch v i = Ok (map (impute_momentum r) feature_cols, map r target_cols, wi).
Proof.
  intros d v i r H Hi Hr. apply abt_init_inv in H. subst v.
  set (v := mkView _ _ _ _).
  assert (Hz : nth_error (zmat v) (Z.to_nat i) =
            Some (div_opt (sqrt_opt (cell_R (r "acs_pop_total")))
                   (sqrt_opt (sum_nan (map (fun r' => cell_R (r' "acs_pop_total"))
                                           (frows d)))))).
  { simpl. unfold weights_torch. rewrite pops_impute, !nth_error_map.
    change (nth_error (A := string -> cell) (frows d) (Z.to_nat i) = Some r) in Hr.
    rewrite Hr. simpl. rewrite map_map. reflexivity. }
  eexists. split; [exact Hz|]. unfold getitem_torch.
  rewrite (py_index_nonneg (xmat v) i (map (impute_momentum r) feature_cols)),
    (py_index_nonneg (ymat v) i (map r target_cols)), (py_index_nonneg (zmat v) i _ Hi Hz);
    try exact Hi; try reflexivity; simpl.
  - rewrite !nth_error_map, Hr. reflexivity.
  - rewrite !nth_error_map, Hr. reflexivity.
Qed.

(** (C6, as the code does it) Both views report as [__len__] the number of
    rows of their frame.  In torch_data.py, [view[i]] for a row index [i] of
    the frame is the triple of row [i] alone: its features (momentum
    imputed), its targets and its weight.  In sklearn_cv_data.py, [view[i]]
    ignores [i] and returns the whole feature, target and weight matrices,
    each with one entry per row of the frame. *)
Theorem getitem_row_scope : forall d v,
  (abt_init_torch d = Ok v ->
     abt_len v = List.length (frows d) /\
     forall i r, 0 <= i -> nth_error (frows d) (Z.to_nat i) = Some r ->
       exists wi, nth_error (zmat v) (Z.to_nat i) = Some wi /\
         getitem_torch v i = Ok (map (impute_momentum r) feature_cols, map r target_cols, wi)) /\
  (abt_init_sk d = Ok v ->
     abt_len v = List.length (frows d) /\
     forall i, getitem_sk v i = (xmat v, ymat v, zmat v) /\
       List.length (xmat v) = abt_len v /\ List.length (ymat v) = abt_len v /\
       List.length (zmat v) = abt_len v).
Proof.
  intros d v. split.
  - intros H. split; [exact (abt_len_init _ _ _ H)|].
    intros i r Hi Hr. exact (getitem_torch_row d v i r H Hi Hr).
  - intros H. split; [exact (abt_len_init _ _ _ H)|].
    intros i. apply abt_init_inv in H. subst v. unfold abt_len. simpl.
    rewrite weights_sk_length, !length_map. repeat split.
Qed.

Lemma all_some : forall {A} (l : list (option A)),
  (forall o, In o l -> o <> None) -> exists xs, l = map Some xs.
Proof.
  intros A l H. induction l as [|o l IH]; [exists []; reflexivity|].
  destruct o as [x|]; [|exfalso; apply (H None); [now left | reflexivity]].
  destruct IH as [xs ->]; [intros; apply H; now right|]. now exists (x :: xs).
Qed.

Lemma Q2R_0 : Q2R 0 = 0%R.
Proof. unfold Q2R. simpl. ring. Qed.

Lemma Q2R_nonneg : forall q, (0 <= q)%Q -> (0 <= Q2R q)%R.
Proof. intros q H. rewrite <- Q2R_0. now apply Qle_Rle. Qed.

Lemma Q2R_pos : forall q, (0 < q)%Q -> (0 < Q2R q)%R.
Proof. intros q H. rewrite <- Q2R_0. now apply Qlt_Rlt. Qed.

Lemma sum_skipna_nonneg : forall (f : Q -> R) qs,
  (forall q, In q qs -> (0 <= f q)%R) -> (0 <= sum_skipna (map (fun q => Some (f q)) qs))%R.
Proof.
  intros f qs H. induction qs as [|q qs IH]; simpl; [lra|].
  pose proof (H q (or_introl eq_refl)).
  assert (0 <= sum_skipna (map (fun q => Some (f q)) qs))%R by (apply IH; intros; apply H; now right).
  lra.
Qed.

Lemma sum_skipna_pos : forall (f : Q -> R) qs q0,
  (forall q, In q qs -> (0 <= f q)%R) -> In q0 qs -> (0 < f q0)%R ->
  (0 < sum_skipna (map (fun q => Some (f q)) qs))%R.
Proof.
  intros f qs q0 H Hin Hq0. induction qs as [|q qs IH]; [contradiction|]. simpl.
  pose proof (H q (or_introl eq_refl)).
  pose proof (sum_skipna_nonneg f qs (fun x Hx => H x (or_intror Hx))).
  destruct Hin as [->|Hin]; [lra|].
  assert (0 < sum_skipna (map (fun q => Some (f q)) qs))%R
    by (apply IH; [intros; apply H; now right | exact Hin]).
  lra.
Qed.

Lemma sum_nan_some : forall (f : Q -> R) qs,
  sum_nan (map (fun q => Some (f q)) qs) = Some (sum_skipna (map (fun q => Some (f q)) qs)).
Proof. intros f qs. induction qs as [|q qs IH]; simpl; [reflexivity|]. now rewrite IH. Qed.

Lemma sum_nan_none : forall l, In None l -> sum_nan l = None.
Proof.
  intros l H. induction l as [|o l IH]; [contradiction|]. simpl.
  destruct H as [H|H]; [subst o; reflexivity|]. rewrite IH by exact H. now destruct o.
Qed.

(** The populations of a frame whose populations are all present and
    non-negative, one of them positive. *)
Lemma present_pops : forall rs : list row,
  (forall r, In r rs -> exists q, r "acs_pop_total" = Some q /\ (0 <= q)%Q) ->
  (exists r q, In r rs /\ r "acs_pop_total" = Some q /\ (0 < q)%Q) ->
  exists qs, map (fun r => r "acs_pop_total") rs = map Some qs /\
    (forall q, In q qs -> (0 <= q)%Q) /\ exists q0, In q0 qs /\ (0 < q0)%Q.
Proof.
  intros rs Hall [r0 [q0 [Hr0 [Hq0 Hpos]]]].
  destruct (all_some (map (fun r => r "acs_pop_total") rs)) as [qs Hqs].
  { intros o Ho. apply in_map_iff in Ho as [r [<- Hr]].
    destruct (Hall r Hr) as [q [-> _]]. discriminate. }
  exists qs. split; [exact Hqs|]. split.
  - intros q Hq. assert (Hin : In (Some q) (map (fun r => r "acs_pop_total") rs))
      by (rewrite Hqs; now apply in_map).
    apply in_map_iff in Hin as [r [Hrq Hr]]. destruct (Hall r Hr) as [q' [Hq' Hle]].
    rewrite Hrq in Hq'. inversion Hq'; subst. exact Hle.
  - exists q0. split; [|exact Hpos].
    assert (Hin : In (Some q0) (map Some qs))
      by (rewrite <- Hqs, <- Hq0; now apply in_map with (f := fun r => r "acs_pop_total")).
    apply in_map_iff in Hin as [q [Hq Hin]]. inversion Hq; subst. exact Hin.
Qed.

(** The weights of an sklearn_cv_data.py view whose populations are all
    present and non-negative, not all zero: every weight is present and
    non-negative, and they sum to 1. *)
Theorem sk_view_weights_normalised : forall d v,
  abt_init_sk d = Ok v ->
  (forall r, In r (frows d) -> exists q, r "acs_pop_total" = Some q /\ (0 <= q)%Q) ->
  (exists r q, In r (frows d) /\ r "acs_pop_total" = Some q /\ (0 < q)%Q) ->
  Forall (fun w => exists x, w = Some x /\ (0 <= x)%R) (zmat v) /\
  sum_skipna (zmat v) = 1%R.
Proof.
  intros d v H Hall Hpos. apply abt_init_inv in H. subst v. simpl.
  rewrite pops_impute.
  destruct (present_pops (frows d) Hall Hpos) as [qs [Hmq [Hqs [q0 [Hq0 Hq0p]]]]].
  replace (map (fun r : string -> cell => r "acs_pop_total") (frows d)) with (map Some qs)
    by (symmetry; exact Hmq).
  assert (HR : forall q, In q qs -> (0 <= Q2R q)%R) by (intros; apply Q2R_nonneg; auto).
  assert (HT : sum_skipna (map (fun q => Some (sqrt (Q2R q))) qs) <> 0%R).
  { apply Rgt_not_eq, (sum_skipna_pos (fun q => sqrt (Q2R q)) qs q0);
      [intros; apply sqrt_pos | exact Hq0 | apply sqrt_lt_R0, Q2R_pos, Hq0p]. }
  destruct (weights_sk_normalised qs HR HT) as [Hw [Hnn Hsum]].
  split; [|exact Hsum].
  rewrite Hw. apply Forall_forall. intros w Hw'. apply in_map_iff in Hw' as [q [<- Hq]].
  eexists. split; [reflexivity | now apply Hnn].
Qed.

(** The weights of a torch_data.py view whose populations are all present
    and non-negative, not all zero: every weight is present and
    non-negative, and their squares sum to 1 (they have unit Euclidean
    norm). *)
Theorem torch_view_weights_unit_norm : forall d v,
  abt_init_torch d = Ok v ->
  (forall r, In r (frows d) -> exists q, r "acs_pop_total" = Some q /\ (0 <= q)%Q) ->
  (exists r q, In r (frows d) /\ r "acs_pop_total" = Some q /\ (0 < q)%Q) ->
  Forall (fun w => exists x, w = Some x /\ (0 <= x)%R) (zmat v) /\
  sum_skipna (map (option_map (fun x => (x * x)%R)) (zmat v)) = 1%R.
Proof.
  intros d v H Hall Hpos. apply abt_init_inv in H. subst v. simpl.
  rewrite pops_impute.
  destruct (present_pops (frows d) Hall Hpos) as [qs [Hmq [Hqs [q0 [Hq0 Hq0p]]]]].
  replace (map (fun r : string -> cell => r "acs_pop_total") (frows d)) with (map Some qs)
    by (symmetry; exact Hmq).
  assert (HR : forall q, In q qs -> (0 <= Q2R q)%R) by (intros; apply Q2R_nonneg; auto).
  set (T := sum_skipna (map (fun q => Some (Q2R q)) qs)).
  assert (HT : (0 < T)%R) by (apply (sum_skipna_pos Q2R qs q0); auto using Q2R_pos).
  assert (HsT : (0 < sqrt T)%R) by (apply sqrt_lt_R0, HT).
  assert (Hw : weights_torch (map Some qs) =
               map (fun q => Some (sqrt (Q2R q) / sqrt T)%R) qs).
  { unfold weights_torch. rewrite !map_map.
    replace (map (fun x => cell_R (Some x)) qs) with (map (fun q => Some (Q2R q)) qs)
      by reflexivity.
    rewrite sum_nan_some. fold T.
    apply map_ext_in. intros q Hq. unfold sqrt_opt, cell_R. simpl.
    destruct (Rle_dec 0 (Q2R q)) as [_|Hn]; [|exfalso; apply Hn, HR, Hq].
    destruct (Rle_dec 0 T) as [_|Hn]; [|exfalso; lra].
    apply div_opt_some. lra. }
  rewrite Hw. split.
  - apply Forall_forall. intros w Hw'. apply in_map_iff in Hw' as [q [<- Hq]].
    eexists. split; [reflexivity|].
    apply Rmult_le_pos; [apply sqrt_pos | apply Rlt_le, Rinv_0_lt_compat, HsT].
  - rewrite map_map.
    rewrite (map_ext_in _ (fun q => Some (Q2R q / T)%R)).
    + rewrite (sum_skipna_div Q2R). fold T. unfold Rdiv. apply Rinv_r. lra.
    + intros q Hq. simpl. f_equal.
      assert (Hsq : (sqrt (Q2R q) * sqrt (Q2R q))%R = Q2R q) by (apply sqrt_sqrt, HR, Hq).
      assert (HsT2 : (sqrt T * sqrt T)%R = T) by (apply sqrt_sqrt; lra).
      transitivity ((sqrt (Q2R q) * sqrt (Q2R q)) / (sqrt T * sqrt T))%R.
      * field. lra.
      * now rewrite Hsq, HsT2.
Qed.

(** A missing population anywhere in a torch_data.py view makes every
    weight of the view missing: [torch.sum] propagates the NaN. *)
Theorem torch_view_missing_population : forall d v,
  abt_init_torch d = Ok v ->
  (exists r, In r (frows d) /\ r "acs_pop_total" = None) ->
  Forall (fun w => w = None) (zmat v).
Proof.
  intros d v H [r0 [Hr0 Hn]]. apply abt_init_inv in H. subst v. simpl.
  rewrite pops_impute. unfold weights_torch.
  rewrite sum_nan_none.
  - apply Forall_forall. intros w Hw. apply in_map_iff in Hw as [c [<- _]].
    unfold sqrt_opt at 2, div_opt. now destruct (sqrt_opt (cell_R c)).
  - rewrite map_map. apply in_map_iff. exists r0. split; [now rewrite Hn | exact Hr0].
Qed.

(** A view whose rows all have population 0 (both variants): every weight
    is missing, as [0 / 0] is NaN. *)
Theorem zero_population_weights : forall w d v,
  (w = weights_sk \/ w = weights_torch) -> abt_init w d = Ok v ->
  (forall r, In r (frows d) -> exists q, r "acs_pop_total" = Some q /\ (q == 0)%Q) ->
  Forall (fun x => x = None) (zmat v).
Proof.
  intros w d v Hw H Hall. apply abt_init_inv in H. subst v. simpl.
  rewrite pops_impute.
  destruct (all_some (map (fun r => r "acs_pop_total") (frows d))) as [qs Hqs].
  { intros o Ho. apply in_map_iff in Ho as [r [<- Hr]].
    destruct (Hall r Hr) as [q [-> _]]. discriminate. }
  assert (Hz : forall q, In q qs -> Q2R q = 0%R).
  { intros q Hq. assert (Hin : In (Some q) (map (fun r => r "acs_pop_total") (frows d)))
      by (rewrite Hqs; now apply in_map).
    apply in_map_iff in Hin as [r [Hrq Hr]]. destruct (Hall r Hr) as [q' [Hq' Hq0]].
    rewrite Hrq in Hq'. inversion Hq'; subst. rewrite <- Q2R_0. now apply Qeq_eqR. }
  assert (Hsq : forall q, In q qs -> sqrt_opt (cell_R (Some q)) = Some 0%R).
  { intros q Hq. unfold sqrt_opt, cell_R. simpl. rewrite (Hz q Hq).
    destruct (Rle_dec 0 0) as [_|Hn]; [now rewrite sqrt_0 | exfalso; lra]. }
  replace (map (fun r : string -> cell => r "acs_pop_total") (frows d)) with (map Some qs)
    by (symmetry; exact Hqs).
  apply Forall_forall. destruct Hw as [->| ->].
  - unfold weights_sk. cbv zeta.
    assert (Hs : map (fun c => sqrt_opt (cell_R c)) (map Some qs) = map (fun _ => Some 0%R) qs)
      by (rewrite map_map; apply map_ext_in; exact Hsq).
    rewrite Hs.
    assert (Hs0 : sum_skipna (map (fun _ : Q => Some 0%R) qs) = 0%R).
    { clear. induction qs; simpl; [reflexivity | rewrite IHqs; ring]. }
    rewrite Hs0. intros x Hx. apply in_map_iff in Hx as [o [<- Ho]].
    apply in_map_iff in Ho as [q [<- _]]. unfold div_opt.
    destruct (Req_dec_T 0 0); [reflexivity | contradiction].
  - unfold weights_torch. rewrite map_map.
    replace (sum_nan (map cell_R (map Some qs))) with (Some 0%R).
    + intros x Hx. apply in_map_iff in Hx as [q [<- Hq]].
      rewrite (Hsq q Hq). unfold sqrt_opt at 1. destruct (Rle_dec 0 0) as [_|Hn]; [|lra].
      rewrite sqrt_0. unfold div_opt. destruct (Req_dec_T 0 0); [reflexivity | contradiction].
    + rewrite map_map. change (map (fun x => cell_R (Some x)) qs)
        with (map (fun q => Some (Q2R q)) qs).
      rewrite sum_nan_some. f_equal. symmetry.
      rewrite (map_ext_in _ (fun _ => Some 0%R)) by (intros q Hq; now rewrite (Hz q Hq)).
      clear. induction qs; simpl; [reflexivity | rewrite IHqs; ring].
Qed.

(** The body of [__worker_init_fn__]: for every torch seed in
    [[0, 2**32)], the numpy seed [torch_seed // 2**32 - 1] is [-1] and
    [np.random.seed] raises [ValueError] (after [random.seed(torch_seed)]);
    for a non-negative torch seed, numpy accepts its seed exactly when the
    torch seed lies in [[2**32, (2**32 + 1) * 2**32)]. *)
Theorem worker_init_np_seed :
  (forall s, 0 <= s < 2 ^ 32 -> worker_init_fn s = (s, Err ValueError)) /\
  (forall s, 0 <= s ->
     (snd (worker_init_fn s) = Ok (s / 2 ^ 32 - 1) <->
      2 ^ 32 <= s < (2 ^ 32 + 1) * 2 ^ 32)).
Proof.
  unfold worker_init_fn, np_seed_ok. split.
  - intros s Hs. rewrite Z.div_small by exact Hs. reflexivity.
  - intros s Hs. assert (Hp : 2 ^ 32 = 4294967296) by reflexivity.
    rewrite !Hp. cbv zeta. cbn [snd].
    pose proof (Z.div_mod s 4294967296 ltac:(lia)).
    pose proof (Z.mod_pos_bound s 4294967296 ltac:(lia)).
    destruct ((0 <=? s / 4294967296 - 1) && (s / 4294967296 - 1 <=? 4294967296 - 1)) eqn:E.
    + apply andb_true_iff in E as [E1 E2]. apply Z.leb_le in E1, E2.
      split; [intros _; lia | reflexivity].
    + apply andb_false_iff in E. split; [discriminate|].
      intros Hr. exfalso. destruct E as [E|E]; apply Z.leb_gt in E; lia.
Qed.

Lemma has_col_extend : forall d d' c ex,
  fcols d' = fcols d ++ ex -> has_col d c = true -> has_col d' c = true.
Proof.
  intros d d' c ex Hc H. unfold has_col in *. rewrite Hc, existsb_app, H. reflexivity.
Qed.

Lemma has_cols_extend : forall d d' cs ex,
  fcols d' = fcols d ++ ex -> has_cols d cs = true -> has_cols d' cs = true.
Proof.
  intros d d' cs ex Hc H. unfold has_cols in *. rewrite forallb_forall in *.
  intros c Hin. eapply has_col_extend; [exact Hc | now apply H].
Qed.

Lemma Forall2_in_r : forall {A B} (P : A -> B -> Prop) l1 l2 y,
  Forall2 P l1 l2 -> In y l2 -> exists x, In x l1 /\ P x y.
Proof.
  intros A B P l1 l2 y H. induction H as [|x y' l1 l2 Hxy H IH]; [contradiction|].
  intros [<-|Hin]; [exists x; split; [now left | exact Hxy]|].
  destruct (IH Hin) as [x' [Hx' Hp]]. exists x'. split; [now right | exact Hp].
Qed.

Lemma py_range_length : forall a b, List.length (py_range a b) = Z.to_nat (b - a).
Proof. intros a b. unfold py_range. now rewrite length_map, length_seq. Qed.

Section PipelineFacts.

Variable rng : Type.
Variable seed_rng : Z -> rng.
Variable sample_draw : rng -> Z -> Z -> list Z * rng.
Variable shuffle : Z -> list row -> list row.

Hypothesis shuffle_perm : forall rs l, Permutation (shuffle rs l) l.
Hypothesis sample_draw_length : forall g n k,
  0 <= k <= n -> List.length (fst (sample_draw g n k)) = Z.to_nat k.

Lemma repeat_loop_ok : forall d K seeds,
  has_cols d ["county_fip"; "state_code"] = true ->
  snd (repeat_loop shuffle d K seeds) = None /\
  Forall2 (fun rs sp => splitter_init (shuffled shuffle d rs) K = Ok sp)
          seeds (fst (repeat_loop shuffle d K seeds)).
Proof.
  intros d K seeds Hk. induction seeds as [|rs seeds IH]; simpl; [split; constructor|].
  destruct (splitter_init_ok (shuffled shuffle d rs) K Hk) as [sp [Hsp _]].
  rewrite Hsp. destruct (repeat_loop shuffle d K seeds) as [ys e]. simpl in *.
  destruct IH as [IHe IHf]. split; [exact IHe | constructor; assumption].
Qed.

Lemma has_col_fold_added : forall d d',
  fcols d' = fcols d ++ ["__fold"] -> has_col d' "__fold" = true.
Proof.
  intros d d' H. unfold has_col. rewrite H, existsb_app. simpl. apply orb_true_r.
Qed.

(** Iterating a repeat built from a table with every column the views
    read raises nothing when the batch size is accepted. *)
Lemma repeat_views_ok : forall w b d K sp,
  loader_ok b = true -> splitter_init d K = Ok sp ->
  has_cols d ["infection_momentum"; "acs_pop_total"] = true ->
  has_cols d target_cols = true -> has_cols d feature_cols = true ->
  snd (splitter_iter w b sp) = None /\
  Forall2 (fun f p => abt_init w (fst (fold_split sp f)) = Ok (fst p) /\
                      abt_init w (snd (fold_split sp f)) = Ok (snd p))
          (py_range 1 (1 + sp_folds sp)) (fst (splitter_iter w b sp)).
Proof.
  intros w b d K sp Hb Hinit Hc Ht Hf.
  assert (Hk : has_cols d ["county_fip"; "state_code"] = true).
  { unfold splitter_init in Hinit. destruct (has_cols d _); [reflexivity | discriminate]. }
  destruct (splitter_init_ok d K Hk) as [sp' [Hinit' Hcols]].
  rewrite Hinit in Hinit'. inversion Hinit'; subst sp'. clear Hinit'.
  unfold has_cols in Hc. simpl in Hc. apply andb_true_iff in Hc as [Hm Hc].
  apply andb_true_iff in Hc as [Hp _].
  destruct (splitter_loop_ok w b sp (py_range 1 (1 + sp_folds sp)) Hb) as [He Hl].
  { intros fs. destruct (make_dataset_ok w sp fs) as [-> Hv]; [| | | | | exact Hv];
      first [eapply has_col_fold_added; exact Hcols
            | eapply has_col_extend; [exact Hcols | assumption]
            | eapply has_cols_extend; [exact Hcols | assumption]]. }
  assert (Hmd : forall fs, make_dataset w sp fs = abt_init w (fold_subset (sp_data sp) fs)).
  { intros fs. unfold make_dataset. now rewrite (has_col_fold_added _ _ Hcols). }
  split; [exact He|]. eapply Forall2_impl; [|exact Hl]. intros f p [Htr Hte].
  rewrite Hmd in Htr, Hte. split; assumption.
Qed.

(** The whole pipeline on a table with every column the code reads and no
    [__fold] column, a seed numpy accepts, [0 <= R <= 1000] and a batch
    size the [DataLoader] accepts: iterating the orchestrator and each of
    its repeats raises nothing, yields [R] repeats of [K] (train, test)
    views each (none when [K <= 0]), and, when every row has a
    [state_code], the train and test views of every fold together have as
    many rows as the table. *)
Theorem pipeline_shape : forall w b wt o g,
  np_seed_ok (o_seed o) = true -> loader_ok b = true ->
  0 <= o_repeats o <= 1000 ->
  has_col (o_data o) "__fold" = false ->
  has_cols (o_data o)
    ["county_fip"; "state_code"; "infection_momentum"; "acs_pop_total"] = true ->
  has_cols (o_data o) target_cols = true ->
  has_cols (o_data o) feature_cols = true ->
  snd (fold_contents seed_rng sample_draw shuffle w b wt o g) = None /\
  List.length (fst (fold_contents seed_rng sample_draw shuffle w b wt o g)) =
    Z.to_nat (o_repeats o) /\
  Forall (fun rep =>
      snd rep = None /\ List.length (fst rep) = Z.to_nat (o_folds o) /\
      ((forall r, In r (frows (o_data o)) -> r "state_code" <> None) ->
       Forall (fun p => (abt_len (fst p) + abt_len (snd p) =
                         List.length (frows (o_data o)))%nat) (fst rep)))
    (fst (fold_contents seed_rng sample_draw shuffle w b wt o g)).
Proof.
  intros w b wt o g Hseed Hb HR _ Hc Ht Hf.
  assert (Hk : has_cols (o_data o) ["county_fip"; "state_code"] = true).
  { unfold has_cols in *. simpl in *. now destruct (has_col (o_data o) "county_fip"),
      (has_col (o_data o) "state_code"). }
  assert (Hmp : has_cols (o_data o) ["infection_momentum"; "acs_pop_total"] = true).
  { unfold has_cols in *. simpl in *.
    destruct (has_col (o_data o) "infection_momentum"),
      (has_col (o_data o) "acs_pop_total"); rewrite ?andb_false_r in Hc;
      try discriminate; reflexivity. }
  unfold fold_contents.
  rewrite (orch_iter_seed_ok rng seed_rng sample_draw shuffle wt o g Hseed).
  unfold py_sample.
  replace ((0 <=? o_repeats o) && (o_repeats o <=? 1000)) with true
    by (symmetry; apply andb_true_iff; lia).
  pose proof (sample_draw_length (seed_rng (o_seed o)) 1000 (o_repeats o) HR) as Hl.
  destruct (sample_draw (seed_rng (o_seed o)) 1000 (o_repeats o)) as [seeds g'].
  simpl in Hl.
  destruct (repeat_loop_ok (o_data o) (o_folds o) seeds Hk) as [He Hsps].
  destruct (repeat_loop shuffle (o_data o) (o_folds o) seeds) as [sps e] eqn:Erl.
  simpl in *. split; [exact He|]. split.
  - rewrite length_map, <- (Forall2_length Hsps). exact Hl.
  - apply Forall_forall. intros rep Hrep. apply in_map_iff in Hrep as [sp [<- Hsp]].
    destruct (Forall2_in_r _ _ _ _ Hsps Hsp) as [rs [_ Hinit]].
    pose proof (splitter_init_folds _ _ _ Hinit) as HK.
    destruct (repeat_views_ok w b _ _ sp Hb Hinit Hmp Ht Hf) as [Hie Hip].
    split; [exact Hie|]. split.
    + rewrite <- (Forall2_length Hip), py_range_length, HK. f_equal. lia.
    + intros Hs. apply Forall_forall. intros p Hpin.
      destruct (Forall2_in_r _ _ _ _ Hip Hpin) as [fo [Hfo [Htr Hte]]].
      apply py_range_In in Hfo. rewrite HK in Hfo.
      rewrite (abt_len_init _ _ _ Htr), (abt_len_init _ _ _ Hte).
      destruct (splitter_completeness (shuffled shuffle (o_data o) rs) (o_folds o) sp)
        as [Hlen [Hsum _]]; [lia | exact Hinit | |].
      * intros r Hr. apply Hs. simpl in Hr.
        eapply Permutation_in; [apply shuffle_perm | exact Hr].
      * rewrite Hsum, Hlen. simpl. apply Permutation_length, shuffle_perm.
Qed.




End PipelineFacts.

(** ** Witnesses of the further properties *)

Lemma demo_frame_pops_nonneg : forall r, In r (frows demo_frame) ->
  exists q, r "acs_pop_total" = Some q /\ (0 <= q)%Q.
Proof.
  intros r Hr. simpl in Hr.
  repeat (destruct Hr as [<-|Hr]; [eexists; split; [reflexivity | unfold Qle; simpl; lia]|]).
  contradiction.
Qed.

Lemma demo_frame_pop_pos : exists r q, In r (frows demo_frame) /\
  r "acs_pop_total" = Some q /\ (0 < q)%Q.
Proof.
  eexists. exists 9%Q. split; [left; reflexivity|].
  split; [reflexivity | unfold Qlt; simpl; lia].
Qed.

Lemma splitter_init_outcome_witness :
  splitter_init (mkFrame ["x"] []) 2 = Err KeyError /\
  exists sp, splitter_init demo_frame 2 = Ok sp /\ sp_folds sp = 2 /\
    fcols (sp_data sp) = fcols demo_frame ++ ["__fold"].
Proof.
  split; [apply (proj1 (splitter_init_outcome (mkFrame ["x"] []) 2)); reflexivity|].
  destruct (proj2 (splitter_init_outcome demo_frame 2) ltac:(reflexivity) ltac:(reflexivity))
    as [sp [H [HK [Hc _]]]].
  exists sp. split; [exact H | split; assumption].
Defined.

Lemma splitter_fold_values_witness :
  splitter_init demo_frame 2 = Ok demo_repeat /\
  In demo_merged_row (frows (sp_data demo_repeat)) /\
  exists z, demo_merged_row "__fold" = Some (inject_Z z) /\ 1 <= z <= 2.
Proof.
  assert (Hi : splitter_init demo_frame 2 = Ok demo_repeat) by reflexivity.
  assert (Hm : In demo_merged_row (frows (sp_data demo_repeat))) by (left; reflexivity).
  split; [exact Hi|]. split; [exact Hm|].
  apply (proj1 (splitter_fold_values demo_frame 2 demo_repeat demo_merged_row Hi Hm));
    [lia | vm_compute; discriminate].
Defined.


Lemma splitter_iter_views_witness :
  snd (splitter_iter weights_torch (Some 64) demo_repeat) = None /\
  Forall2 (fun f p => abt_init weights_torch (fst (fold_split demo_repeat f)) = Ok (fst p) /\
                      abt_init weights_torch (snd (fold_split demo_repeat f)) = Ok (snd p))
          (py_range 1 (1 + sp_folds demo_repeat))
          (fst (splitter_iter weights_torch (Some 64) demo_repeat)).
Proof.
  apply splitter_iter_views; vm_compute; reflexivity.
Defined.

Lemma splitter_iter_missing_column_witness :
  splitter_iter weights_sk None (mkSplitter 2 (mkFrame ["county_fip"] [])) =
    ([], Some KeyError) /\
  splitter_iter weights_sk None (mkSplitter 2 (mkFrame ["__fold"; "county_fip"] [])) =
    ([], Some AttributeError) /\
  splitter_iter weights_sk None
      (mkSplitter 2 (mkFrame ["__fold"; "infection_momentum"] [])) = ([], Some KeyError) /\
  splitter_iter weights_torch (Some 0) demo_repeat = ([], Some ValueError).
Proof.
  split; [|split; [|split]].
  - apply (proj1 (splitter_iter_missing_column weights_sk None
                    (mkSplitter 2 (mkFrame ["county_fip"] [])) ltac:(simpl; lia))).
    reflexivity.
  - apply (proj1 (proj2 (splitter_iter_missing_column weights_sk None
                    (mkSplitter 2 (mkFrame ["__fold"; "county_fip"] [])) ltac:(simpl; lia))));
      reflexivity.
  - apply (proj1 (proj2 (proj2 (splitter_iter_missing_column weights_sk None
                    (mkSplitter 2 (mkFrame ["__fold"; "infection_momentum"] []))
                    ltac:(simpl; lia)))));
      [reflexivity | reflexivity | left; reflexivity].
  - apply (proj2 (proj2 (proj2 (splitter_iter_missing_column weights_torch (Some 0)
                    demo_repeat ltac:(vm_compute; discriminate)))));
      vm_compute; reflexivity.
Defined.

Lemma view_shape_witness :
  exists v, abt_init weights_sk demo_frame = Ok v /\
  abt_len v = 3%nat /\
  List.length (xmat v) = abt_len v /\ List.length (ymat v) = abt_len v /\
  List.length (zmat v) = abt_len v /\
  Forall (fun x => List.length x = 17%nat /\ nth 14 x None <> None) (xmat v) /\
  Forall (fun y => List.length y = 2%nat) (ymat v).
Proof.
  destruct (abt_init weights_sk demo_frame) as [v|e] eqn:E; [|discriminate].
  exists v. split; [reflexivity|].
  exact (view_shape weights_sk demo_frame v (or_introl eq_refl) E).
Defined.

Lemma getitem_torch_bounds_witness :
  exists v, abt_init_torch demo_frame = Ok v /\
    getitem_torch v 3 = Err IndexError /\
    getitem_torch v (-1) = getitem_torch v 2.
Proof.
  destruct (abt_init_torch demo_frame) as [v|e] eqn:E; [|discriminate].
  destruct (getitem_torch_bounds demo_frame v E) as [Hout [_ Hneg]].
  assert (Hn : abt_len v = 3%nat) by (rewrite (abt_len_init _ _ _ E); reflexivity).
  exists v. split; [reflexivity|]. split.
  - apply Hout. rewrite Hn. right. simpl. lia.
  - rewrite (Hneg (-1)) by (rewrite Hn; simpl; lia). rewrite Hn. reflexivity.
Defined.

Lemma sk_view_weights_normalised_witness :
  exists v, abt_init_sk demo_frame = Ok v /\
    Forall (fun w => exists x, w = Some x /\ (0 <= x)%R) (zmat v) /\
    sum_skipna (zmat v) = 1%R.
Proof.
  destruct (abt_init_sk demo_frame) as [v|e] eqn:E; [|discriminate].
  exists v. split; [reflexivity|].
  exact (sk_view_weights_normalised demo_frame v E demo_frame_pops_nonneg demo_frame_pop_pos).
Defined.

Lemma torch_view_weights_unit_norm_witness :
  exists v, abt_init_torch demo_frame = Ok v /\
    Forall (fun w => exists x, w = Some x /\ (0 <= x)%R) (zmat v) /\
    sum_skipna (map (option_map (fun x => (x * x)%R)) (zmat v)) = 1%R.
Proof.
  destruct (abt_init_torch demo_frame) as [v|e] eqn:E; [|discriminate].
  exists v. split; [reflexivity|].
  exact (torch_view_weights_unit_norm demo_frame v E demo_frame_pops_nonneg
           demo_frame_pop_pos).
Defined.

Lemma torch_view_missing_population_witness :
  exists v, abt_init_torch nopop_frame = Ok v /\ Forall (fun w => w = None) (zmat v).
Proof.
  destruct (abt_init_torch nopop_frame) as [v|e] eqn:E; [|discriminate].
  exists v. split; [reflexivity|].
  apply (torch_view_missing_population nopop_frame v E).
  eexists. split; [right; left; reflexivity | reflexivity].
Defined.

Lemma zero_population_weights_witness :
  exists v, abt_init weights_sk zero_pop_frame = Ok v /\ Forall (fun x => x = None) (zmat v).
Proof.
  destruct (abt_init weights_sk zero_pop_frame) as [v|e] eqn:E; [|discriminate].
  exists v. split; [reflexivity|].
  apply (zero_population_weights weights_sk zero_pop_frame v (or_introl eq_refl) E).
  intros r Hr. destruct Hr as [<-|[]]. exists 0%Q. split; reflexivity.
Defined.

Lemma worker_init_np_seed_witness :
  worker_init_fn 0 = (0, Err ValueError) /\
  snd (worker_init_fn (2 ^ 32)) = Ok (2 ^ 32 / 2 ^ 32 - 1).
Proof.
  split.
  - apply (proj1 worker_init_np_seed). lia.
  - apply (proj2 worker_init_np_seed (2 ^ 32) ltac:(lia)). lia.
Defined.

Lemma pipeline_shape_witness :
  let fc := fold_contents demo_seed demo_sample_draw demo_shuffle weights_torch (Some 64) true
              demo_orch (mkG 0 0 0) in
  snd fc = None /\ List.length (fst fc) = 1%nat /\
  Forall (fun rep =>
      snd rep = None /\ List.length (fst rep) = 2%nat /\
      ((forall r, In r (frows demo_frame) -> r "state_code" <> None) ->
       Forall (fun p => (abt_len (fst p) + abt_len (snd p) = 3)%nat) (fst rep)))
    (fst fc).
Proof.
  exact (pipeline_shape Z demo_seed demo_sample_draw demo_shuffle demo_shuffle_perm
           demo_sample_draw_length weights_torch (Some 64) true demo_orch (mkG 0 0 0)
           ltac:(reflexivity) ltac:(reflexivity) ltac:(simpl; lia) ltac:(reflexivity)
           ltac:(reflexivity) ltac:(reflexivity) ltac:(reflexivity)).
Defined.


Lemma getitem_row_scope_witness :
  exists v v', abt_init_torch demo_frame = Ok v /\ abt_init_sk demo_frame = Ok v' /\
    abt_len v = 3%nat /\
    (exists wi, nth_error (zmat v) 0 = Some wi /\
       getitem_torch v 0 =
         Ok (map (impute_momentum (mk_row (Some 1%Q) (Some 1%Q) None (Some 9%Q))) feature_cols,
             map (mk_row (Some 1%Q) (Some 1%Q) None (Some 9%Q)) target_cols, wi)) /\
    getitem_sk v' 0 = (xmat v', ymat v', zmat v') /\ List.length (xmat v') = 3%nat.
Proof.
  destruct (abt_init_torch demo_frame) as [v|e] eqn:E; [|discriminate].
  destruct (abt_init_sk demo_frame) as [v'|e] eqn:E'; [|discriminate].
  destruct (proj1 (getitem_row_scope demo_frame v) E) as [Hl Hrow].
  destruct (proj2 (getitem_row_scope demo_frame v') E') as [Hl' Hsk].
  exists v, v'. split; [reflexivity|]. split; [reflexivity|].
  split; [rewrite Hl; reflexivity|]. split.
  - apply (Hrow 0 (mk_row (Some 1%Q) (Some 1%Q) None (Some 9%Q))); [lia | reflexivity].
  - destruct (Hsk 0) as [Hg [Hx _]]. split; [exact Hg|]. rewrite Hx, Hl'. reflexivity.
Defined.
